(** * matrix-nova: the project-type registry and the P&L calculation engine

    A shallow embedding of
    - [src/config.js]: [DEFAULT_PROJECT_TYPES] and the class
      [ProjectTypeManager] (the registry of business templates), and
    - [src/unnamed/part_001]: the class [PLCalculationEngine], the most
      complete copy of the engine.  [src/calculations.js] holds two earlier
      copies; [getValue], [calculateROI], [calculatePadelRevenue],
      [calculateGymRevenue], [getCalculation] and [calculateCombinedPL] are
      the same text in all three.

    JavaScript numbers are IEEE-754 binary64 values.  They are modelled by
    [spec_float] with precision 53 and maximal exponent 1024, whose
    operations round to nearest, ties to even, and are plain functions of
    the standard library: every arithmetic step of the source is executed
    bit for bit, including NaN, the infinities and the signed zeros.

    Objects used as dictionaries (a value bag, [customTypes], the engine's
    [Map]s) are finite maps with string keys; the [roles] map of the
    staffing calculation, whose iteration order decides the order of the
    additions, is an association list.  A method that can throw returns a
    sum, and the methods of the registry, which also write its state, run
    in a small state-and-exception monad. *)

From Stdlib Require Import ZArith Bool List String Ascii Lia.
From Stdlib Require Import Floats.SpecFloat.
From stdpp Require Import gmap strings.

Local Open Scope string_scope.

(* ===================================================================== *)
(** ** Numbers *)
(* ===================================================================== *)

Abbreviation float64 := spec_float.

Module Float64.

Definition prec : Z := 53.
Definition emax : Z := 1024.

(** Integer literals of the source. *)
Definition of_Z (z : Z) : float64 := binary_normalize prec emax z 0 false.

(** Used to print integral values back as literals. *)
Definition to_Z (x : float64) : option Z :=
  match x with
  | S754_zero false => Some 0%Z
  | S754_finite s m e =>
      if (0 <=? e)%Z then
        if (e <=? 64)%Z then Some (cond_Zopp s (Zpos m * 2 ^ e))%Z else None
      else if (Zpos m mod 2 ^ (- e) =? 0)%Z
           then Some (cond_Zopp s (Zpos m / 2 ^ (- e)))%Z
           else None
  | _ => None
  end.

Definition NaN : float64 := S754_nan.
Definition Infinity : float64 := S754_infinity false.

Definition add : float64 -> float64 -> float64 := SFadd prec emax.
Definition sub : float64 -> float64 -> float64 := SFsub prec emax.
Definition mul : float64 -> float64 -> float64 := SFmul prec emax.
Definition div : float64 -> float64 -> float64 := SFdiv prec emax.

(** The relational operators [<], [<=], [>], [>=]: false whenever an
    operand is NaN. *)
Definition ltb (x y : float64) : bool := SFltb x y.
Definition leb (x y : float64) : bool := SFleb x y.
Definition gtb (x y : float64) : bool := SFltb y x.
Definition geb (x y : float64) : bool := SFleb y x.

(** [x == y] on numbers: the two zeros are equal, NaN equals nothing. *)
Definition eqb (x y : float64) : bool := SFeqb x y.

(** [ToBoolean] of a number: [+0], [-0] and [NaN] are falsy. *)
Definition truthy (x : float64) : bool :=
  match x with
  | S754_zero _ | S754_nan => false
  | _ => true
  end.

Definition isFinite (x : float64) : bool :=
  match x with
  | S754_zero _ | S754_finite _ _ _ => true
  | _ => false
  end.

(** [Math.ceil]: the least integral value not below [x]; NaN, the
    infinities and the zeros are returned as they are, and a result in
    [(-1, 0)] rounds to [-0]. *)
Definition ceil (x : float64) : float64 :=
  match x with
  | S754_finite s m e =>
      if (0 <=? e)%Z then x
      else
        let d := (2 ^ (- e))%Z in
        let q := (Zpos m / d)%Z in
        let r := (Zpos m mod d)%Z in
        if s then binary_normalize prec emax (- q) 0 true
        else binary_normalize prec emax (if (r =? 0)%Z then q else q + 1) 0 false
  | _ => x
  end.

(** The Number value of the decimal [m * 10 ^ e10] ([m >= 0]) with sign
    [s]: the exact rational rounded once, to nearest, ties to even.  For a
    negative exponent the quotient is taken with at least 63 significant
    bits and a sticky last bit, so the single rounding of
    [binary_normalize] sees the exact value. *)
Definition of_decimal (s : bool) (m e10 : Z) : float64 :=
  if (m =? 0)%Z then S754_zero s
  else if (0 <=? e10)%Z then
    binary_normalize prec emax (cond_Zopp s (m * 10 ^ e10)) 0 s
  else
    let d := (10 ^ (- e10))%Z in
    let k := Z.max 0 (Z.log2 d - Z.log2 m + 64) in
    let n := (m * 2 ^ k)%Z in
    let q := (n / d)%Z in
    let sticky := if (n mod d =? 0)%Z then 0%Z else 1%Z in
    binary_normalize prec emax (cond_Zopp s (2 * q + sticky)) (- k - 1) s.

End Float64.

Declare Scope js_scope.
Delimit Scope js_scope with js.
Number Notation spec_float Float64.of_Z Float64.to_Z : js_scope.
Bind Scope js_scope with spec_float.

(* ===================================================================== *)
(** ** Strings *)
(* ===================================================================== *)

(** Strings are sequences of 8-bit characters; the identifiers of the
    source are ASCII. *)
Module Str.

(** [s.endsWith(suffix)] *)
Definition endsWith (s suffix : string) : bool :=
  let ls := String.length s in
  let lf := String.length suffix in
  if (lf <=? ls)%nat then String.eqb (substring (ls - lf) lf s) suffix else false.

(** [s.includes(sub)] *)
Fixpoint includes (s sub : string) : bool :=
  match s with
  | EmptyString => String.prefix sub EmptyString
  | String _ r => String.prefix sub s || includes r sub
  end.

(** [s.replace(/suffix$/, '')] *)
Definition stripSuffix (s suffix : string) : string :=
  if endsWith s suffix
  then substring 0 (String.length s - String.length suffix) s
  else s.

Definition lowerChar (c : ascii) : ascii :=
  let n := nat_of_ascii c in
  if ((65 <=? n) && (n <=? 90))%nat then ascii_of_nat (n + 32) else c.

(** [s.toLowerCase()] *)
Fixpoint toLowerCase (s : string) : string :=
  match s with
  | EmptyString => EmptyString
  | String c r => String (lowerChar c) (toLowerCase r)
  end.

End Str.

(* ===================================================================== *)
(** ** Values *)
(* ===================================================================== *)

(** A raw value of a value bag. *)
Inductive jsval :=
| JNum (x : float64)
| JBool (b : bool)
| JStr (s : string)
| JNull
| JUndef.

(** A number or a boolean: the declared defaults of the templates, the
    literal fallbacks of the call sites, and what [getValue] returns. *)
Inductive prim :=
| PNum (x : float64)
| PBool (b : bool).

Coercion PNum : spec_float >-> prim.
Bind Scope js_scope with prim.

Module Js.

Definition ToNumber (v : prim) : float64 :=
  match v with
  | PNum x => x
  | PBool true => 1%js
  | PBool false => 0%js
  end.

Definition ToBoolean (v : prim) : bool :=
  match v with
  | PNum x => Float64.truthy x
  | PBool b => b
  end.

(** Truthiness of a property read [data.key]; [None] is an absent
    property ([undefined]). *)
Definition truthyProp (v : option jsval) : bool :=
  match v with
  | Some (JNum x) => Float64.truthy x
  | Some (JBool b) => b
  | Some (JStr s) => negb (String.eqb s EmptyString)
  | Some JNull | Some JUndef | None => false
  end.

(** [a || b] where [a] may be absent. *)
Definition orElse (a : option prim) (b : prim) : prim :=
  match a with
  | Some v => if ToBoolean v then v else b
  | None => b
  end.

(** The arithmetic operators apply [ToNumber] to both operands. *)
Definition add (a b : prim) : float64 := Float64.add (ToNumber a) (ToNumber b).
Definition sub (a b : prim) : float64 := Float64.sub (ToNumber a) (ToNumber b).
Definition mul (a b : prim) : float64 := Float64.mul (ToNumber a) (ToNumber b).
Definition div (a b : prim) : float64 := Float64.div (ToNumber a) (ToNumber b).
Definition ltb (a b : prim) : bool := Float64.ltb (ToNumber a) (ToNumber b).
Definition leb (a b : prim) : bool := Float64.leb (ToNumber a) (ToNumber b).
Definition gtb (a b : prim) : bool := Float64.gtb (ToNumber a) (ToNumber b).
Definition geb (a b : prim) : bool := Float64.geb (ToNumber a) (ToNumber b).

(** *** parseFloat *)

Definition isWhiteSpace (c : ascii) : bool :=
  let n := nat_of_ascii c in
  ((n =? 9) || (n =? 10) || (n =? 11) || (n =? 12) || (n =? 13) || (n =? 32))%nat.

Fixpoint trimStart (s : string) : string :=
  match s with
  | String c r => if isWhiteSpace c then trimStart r else s
  | EmptyString => s
  end.

Definition digitValue (c : ascii) : option Z :=
  let n := nat_of_ascii c in
  if ((48 <=? n) && (n <=? 57))%nat then Some (Z.of_nat (n - 48)) else None.

(** The longest run of decimal digits at the head of [s]: its value
    appended to [acc], the number of digits read, and the rest. *)
Fixpoint DecimalDigits (s : string) (acc : Z) (count : Z) : Z * Z * string :=
  match s with
  | String c r =>
      match digitValue c with
      | Some d => DecimalDigits r (10 * acc + d)%Z (count + 1)%Z
      | None => (acc, count, s)
      end
  | EmptyString => (acc, count, s)
  end.

(** An optional sign. *)
Definition Sign (s : string) : bool * string :=
  match s with
  | String "-" r => (true, r)
  | String "+" r => (false, r)
  | _ => (false, s)
  end.

(** [ExponentPart]: [e] or [E], an optional sign and at least one digit;
    anything else is not part of the literal and counts as exponent 0. *)
Definition ExponentPart (s : string) : Z :=
  match s with
  | String c r =>
      if (Ascii.eqb c "e" || Ascii.eqb c "E")%char then
        let '(neg, r1) := Sign r in
        let '(v, n, _) := DecimalDigits r1 0 0 in
        if (n =? 0)%Z then 0%Z else if neg then (- v)%Z else v
      else 0%Z
  | EmptyString => 0%Z
  end.

(** The value of the longest prefix of [s] that is a [StrDecimalLiteral],
    NaN when there is none. *)
Definition StrDecimalLiteral (s : string) : float64 :=
  let '(neg, s1) := Sign s in
  if String.prefix "Infinity" s1 then S754_infinity neg
  else
    let '(i, ni, s2) := DecimalDigits s1 0 0 in
    match s2 with
    | String "." r =>
        let '(m, nf, s3) := DecimalDigits r i 0 in
        if ((ni =? 0) && (nf =? 0))%Z then Float64.NaN
        else Float64.of_decimal neg m (ExponentPart s3 - nf)
    | _ =>
        if (ni =? 0)%Z then Float64.NaN
        else Float64.of_decimal neg i (ExponentPart s2)
    end.

(** [parseFloat(value)]: [ToString], leading (ASCII) white space dropped,
    longest numeric prefix.  A Number prints as its shortest round-trip
    decimal, so it parses back to itself, [-0] (printed "0") to [+0]. *)
Definition parseFloat (value : jsval) : float64 :=
  match value with
  | JNum x => match x with S754_zero _ => 0%js | _ => x end
  | JStr s => StrDecimalLiteral (trimStart s)
  | JBool true => StrDecimalLiteral "true"
  | JBool false => StrDecimalLiteral "false"
  | JNull => StrDecimalLiteral "null"
  | JUndef => StrDecimalLiteral "undefined"
  end.

End Js.

Infix "+" := Js.add : js_scope.
Infix "-" := Js.sub : js_scope.
Infix "*" := Js.mul : js_scope.
Infix "/" := Js.div : js_scope.
Infix "<?" := Js.ltb (at level 70) : js_scope.
Infix "<=?" := Js.leb (at level 70) : js_scope.
Infix ">?" := Js.gtb (at level 70) : js_scope.
Infix ">=?" := Js.geb (at level 70) : js_scope.

(** A value bag: field id to raw value. *)
Abbreviation ValueBag := (gmap string jsval).

(** What a [throw] carries: [new Error(message)], or the [TypeError] the
    runtime raises on a property read of [undefined] or on iterating a
    value that is not an array. *)
Inductive exn :=
| Error (message : string)
| TypeError.

(** [e.message]; the text the runtime puts in a [TypeError] is not
    modelled. *)
Definition exnMessage (e : exn) : string :=
  match e with
  | Error m => m
  | TypeError => EmptyString
  end.

(* ===================================================================== *)
(** ** The project-type schema ([src/config.js]) *)
(* ===================================================================== *)

(** One configurable input.  [unit], [min], [max] and [description] are
    display attributes that neither the registry nor the engine reads;
    they are left out.  An absent [defaultValue] or [group] is [None]. *)
Record FieldSpec := {
  f_id : string;
  f_name : string;
  f_type : string;
  f_defaultValue : option prim;
  f_group : option string
}.

(** [config.categories]; a category that is absent or not an array is
    [None]. *)
Record Categories := {
  cat_investment : option (list FieldSpec);
  cat_revenue : option (list FieldSpec);
  cat_operating : option (list FieldSpec);
  cat_staffing : option (list FieldSpec)
}.

(** A project-type configuration as the registry may hold it: any of its
    properties may be absent ([None]), which is what
    [validateProjectTypeConfig] checks.  [icon] is display only and left
    out. *)
Record ProjectTypeConfig := {
  pt_id : option string;
  pt_name : option string;
  pt_description : option string;
  pt_businessType : option string;
  pt_categories : option Categories
}.

Definition field (id name type : string) (defaultValue : prim) (group : string)
  : FieldSpec :=
  {| f_id := id; f_name := name; f_type := type;
     f_defaultValue := Some defaultValue; f_group := Some group |}.

(** *** DEFAULT_PROJECT_TYPES *)

Definition padel_template : ProjectTypeConfig :=
  {| pt_id := Some "padel";
     pt_name := Some "Padel Club";
     pt_description := Some "Padel court business with rental and coaching services";
     pt_businessType := Some "booking";
     pt_categories := Some
       {|
         cat_investment := Some [
           field "ground" "Ground Cost" "currency" 50000 "Infrastructure";
           field "structure" "Structure Cost" "currency" 120000 "Infrastructure";
           field "courts" "Number of Courts" "number" 3 "Equipment";
           field "courtCost" "Per Court Cost" "currency" 18000 "Equipment";
           field "amenities" "Amenities" "currency" 20000 "Infrastructure"
         ];
         cat_revenue := Some [
           field "peakHours" "Peak Hours/Day" "number" 4 "Peak Time";
           field "peakRate" "Peak Rate" "currency" 40 "Peak Time";
           field "peakUtil" "Peak Utilization" "percentage" 70 "Peak Time";
           field "offHours" "Off Hours/Day" "number" 2 "Off-Peak Time";
           field "offRate" "Off Rate" "currency" 25 "Off-Peak Time";
           field "offUtil" "Off Utilization" "percentage" 35 "Off-Peak Time";
           field "days" "Days/Week" "number" 7 "Schedule";
           field "weeks" "Weeks/Year" "number" 52 "Schedule"
         ];
         cat_operating := Some [
           field "utilities" "Utilities/year" "currency" 5000 "Fixed Costs";
           field "insurance" "Insurance/year" "currency" 2500 "Fixed Costs";
           field "maintenance" "Maintenance/year" "currency" 3000 "Variable Costs";
           field "marketing" "Marketing/year" "currency" 4000 "Variable Costs";
           field "admin" "Admin/year" "currency" 3500 "Fixed Costs";
           field "cleaning" "Cleaning/year" "currency" 2000 "Variable Costs";
           field "misc" "Misc/year" "currency" 1000 "Variable Costs"
         ];
         cat_staffing := Some [
           field "ftMgr" "Full-time Manager" "number" 1 "Management";
           field "ftMgrSal" "FT Mgr Salary" "currency" 35000 "Management";
           field "ftRec" "Full-time Reception" "number" 1 "Front Office";
           field "ftRecSal" "FT Rec Salary" "currency" 21000 "Front Office";
           field "ftCoach" "Full-time Coach" "number" 1 "Coaching";
           field "ftCoachSal" "FT Coach Salary" "currency" 25000 "Coaching";
           field "ptCoach" "Part-time Coach" "number" 1 "Coaching";
           field "ptCoachSal" "PT Coach Salary" "currency" 12000 "Coaching";
           field "addStaff" "Additional Staff" "number" 0 "Other";
           field "addStaffSal" "Add Staff Salary" "currency" 0 "Other"
         ]
       |} |}.

Definition gym_template : ProjectTypeConfig :=
  {| pt_id := Some "gym";
     pt_name := Some "Gym/Fitness Center";
     pt_description := Some "Fitness facility with membership-based revenue model";
     pt_businessType := Some "member";
     pt_categories := Some
       {|
         cat_investment := Some [
           field "equipment" "Equipment" "currency" 35000 "Equipment";
           field "flooring" "Flooring" "currency" 8000 "Infrastructure";
           field "amenities" "Amenities" "currency" 6000 "Infrastructure"
         ];
         cat_revenue := Some [
           field "weekMembers" "Weekly Members" "number" 60 "Memberships";
           field "weekFee" "Weekly Fee" "currency" 20 "Memberships";
           field "monthMembers" "Monthly Members" "number" 30 "Memberships";
           field "monthFee" "Monthly Fee" "currency" 50 "Memberships";
           field "annualMembers" "Annual Members" "number" 12 "Memberships";
           field "annualFee" "Annual Fee" "currency" 450 "Memberships";
           field "rampUp" "Apply Ramp-Up" "boolean" (PBool false) "Growth";
           field "rampDuration" "Ramp Duration" "number" 3 "Growth";
           field "rampEffect" "Ramp Effect" "percentage" 40 "Growth"
         ];
         cat_operating := Some [
           field "utilities" "Utilities/year" "currency" 2500 "Fixed Costs";
           field "insurance" "Insurance/year" "currency" 1700 "Fixed Costs";
           field "maintenance" "Maintenance/year" "currency" 2000 "Variable Costs";
           field "marketing" "Marketing/year" "currency" 2500 "Variable Costs";
           field "admin" "Admin/year" "currency" 2100 "Fixed Costs";
           field "cleaning" "Cleaning/year" "currency" 1200 "Variable Costs";
           field "misc" "Misc/year" "currency" 800 "Variable Costs"
         ];
         cat_staffing := Some [
           field "ftTrainer" "Full-time Trainer" "number" 1 "Training";
           field "ftTrainerSal" "FT Trainer Salary" "currency" 22000 "Training";
           field "ptTrainer" "Part-time Trainer" "number" 1 "Training";
           field "ptTrainerSal" "PT Trainer Salary" "currency" 9000 "Training";
           field "addStaff" "Additional Staff" "number" 0 "Other";
           field "addStaffSal" "Add Staff Salary" "currency" 0 "Other"
         ]
       |} |}.

Definition conference_template : ProjectTypeConfig :=
  {| pt_id := Some "conference";
     pt_name := Some "Conference/Event";
     pt_description := Some "Event-based business with ticket sales and venue management";
     pt_businessType := Some "event";
     pt_categories := Some
       {|
         cat_investment := Some [
           field "venue" "Venue Setup" "currency" 15000 "Infrastructure";
           field "equipment" "AV Equipment" "currency" 8000 "Equipment";
           field "technology" "Technology Platform" "currency" 5000 "Technology"
         ];
         cat_revenue := Some [
           field "capacity" "Event Capacity" "number" 200 "Event Specs";
           field "ticketPrice" "Average Ticket Price" "currency" 150 "Pricing";
           field "occupancyRate" "Expected Occupancy" "percentage" 80 "Attendance";
           field "eventsPerYear" "Events per Year" "number" 12 "Schedule";
           field "sponsorship" "Sponsorship Revenue" "currency" 10000 "Additional Revenue"
         ];
         cat_operating := Some [
           field "venueRental" "Venue Rental/year" "currency" 24000 "Fixed Costs";
           field "catering" "Catering/event" "currency" 2000 "Variable Costs";
           field "marketing" "Marketing/year" "currency" 8000 "Variable Costs";
           field "insurance" "Insurance/year" "currency" 2000 "Fixed Costs";
           field "materials" "Materials/event" "currency" 500 "Variable Costs"
         ];
         cat_staffing := Some [
           field "eventManager" "Event Manager" "number" 1 "Management";
           field "eventManagerSal" "Event Manager Salary" "currency" 40000 "Management";
           field "speakers" "Speaker Fees/event" "currency" 3000 "Speakers";
           field "support" "Support Staff/event" "number" 3 "Operations";
           field "supportSal" "Support Staff Cost/event" "currency" 800 "Operations"
         ]
       |} |}.

Definition saas_template : ProjectTypeConfig :=
  {| pt_id := Some "saas";
     pt_name := Some "SaaS Platform";
     pt_description := Some "Software as a Service with subscription-based revenue";
     pt_businessType := Some "member";
     pt_categories := Some
       {|
         cat_investment := Some [
           field "development" "Initial Development" "currency" 50000 "Technology";
           field "infrastructure" "Cloud Infrastructure" "currency" 10000 "Technology";
           field "licenses" "Software Licenses" "currency" 5000 "Technology"
         ];
         cat_revenue := Some [
           field "basicUsers" "Basic Plan Users" "number" 100 "Subscriptions";
           field "basicPrice" "Basic Plan Price" "currency" 29 "Subscriptions";
           field "proUsers" "Pro Plan Users" "number" 50 "Subscriptions";
           field "proPrice" "Pro Plan Price" "currency" 79 "Subscriptions";
           field "churnRate" "Monthly Churn Rate" "percentage" 5 "Retention";
           field "growthRate" "Monthly Growth Rate" "percentage" 10 "Growth"
         ];
         cat_operating := Some [
           field "hosting" "Hosting/month" "currency" 2000 "Technology";
           field "support" "Customer Support/year" "currency" 15000 "Operations";
           field "marketing" "Marketing/year" "currency" 20000 "Growth";
           field "maintenance" "Maintenance/year" "currency" 8000 "Technology"
         ];
         cat_staffing := Some [
           field "developers" "Developers" "number" 2 "Development";
           field "developerSal" "Developer Salary" "currency" 60000 "Development";
           field "customer" "Customer Success" "number" 1 "Operations";
           field "customerSal" "Customer Success Salary" "currency" 45000 "Operations"
         ]
       |} |}.

Definition ecommerce_template : ProjectTypeConfig :=
  {| pt_id := Some "ecommerce";
     pt_name := Some "E-commerce Store";
     pt_description := Some "Online retail business with product sales";
     pt_businessType := Some "product";
     pt_categories := Some
       {|
         cat_investment := Some [
           field "website" "Website Development" "currency" 15000 "Technology";
           field "inventory" "Initial Inventory" "currency" 30000 "Inventory";
           field "warehouse" "Warehouse Setup" "currency" 10000 "Infrastructure"
         ];
         cat_revenue := Some [
           field "avgOrderValue" "Average Order Value" "currency" 75 "Sales";
           field "ordersPerMonth" "Orders per Month" "number" 500 "Sales";
           field "grossMargin" "Gross Margin" "percentage" 40 "Profitability";
           field "returnRate" "Return Rate" "percentage" 8 "Operations"
         ];
         cat_operating := Some [
           field "hosting" "Website Hosting/year" "currency" 2000 "Technology";
           field "shipping" "Shipping Costs/year" "currency" 8000 "Logistics";
           field "payment" "Payment Processing/year" "currency" 3000 "Financial";
           field "marketing" "Digital Marketing/year" "currency" 15000 "Marketing";
           field "warehouse" "Warehouse Costs/year" "currency" 12000 "Logistics"
         ];
         cat_staffing := Some [
           field "manager" "Store Manager" "number" 1 "Management";
           field "managerSal" "Manager Salary" "currency" 35000 "Management";
           field "fulfillment" "Fulfillment Staff" "number" 2 "Operations";
           field "fulfillmentSal" "Fulfillment Salary" "currency" 25000 "Operations"
         ]
       |} |}.

Definition consulting_template : ProjectTypeConfig :=
  {| pt_id := Some "consulting";
     pt_name := Some "Consulting Services";
     pt_description := Some "Professional services with hourly or project-based billing";
     pt_businessType := Some "service";
     pt_categories := Some
       {|
         cat_investment := Some [
           field "office" "Office Setup" "currency" 8000 "Infrastructure";
           field "equipment" "Equipment & Software" "currency" 5000 "Technology";
           field "certification" "Certifications" "currency" 3000 "Professional"
         ];
         cat_revenue := Some [
           field "hourlyRate" "Hourly Rate" "currency" 120 "Pricing";
           field "billableHours" "Billable Hours/week" "number" 30 "Utilization";
           field "utilizationRate" "Utilization Rate" "percentage" 75 "Utilization";
           field "weeksPerYear" "Working Weeks/year" "number" 48 "Schedule"
         ];
         cat_operating := Some [
           field "office" "Office Rent/year" "currency" 8000 "Fixed Costs";
           field "insurance" "Professional Insurance/year" "currency" 2500 "Fixed Costs";
           field "marketing" "Marketing/year" "currency" 5000 "Business Development";
           field "professional" "Professional Development/year" "currency" 3000 "Professional";
           field "equipment" "Equipment Maintenance/year" "currency" 1000 "Operations"
         ];
         cat_staffing := Some [
           field "consultant" "Senior Consultants" "number" 1 "Consultants";
           field "consultantSal" "Consultant Salary" "currency" 70000 "Consultants";
           field "junior" "Junior Consultants" "number" 1 "Consultants";
           field "juniorSal" "Junior Salary" "currency" 40000 "Consultants"
         ]
       |} |}.

Definition generic_template : ProjectTypeConfig :=
  {| pt_id := Some "generic";
     pt_name := Some "Generic Business";
     pt_description := Some "Customizable business model template";
     pt_businessType := Some "hybrid";
     pt_categories := Some
       {|
         cat_investment := Some [
           field "equipment" "Equipment" "currency" 0 "Assets";
           field "infrastructure" "Infrastructure" "currency" 0 "Assets";
           field "other" "Other Investments" "currency" 0 "Assets"
         ];
         cat_revenue := Some [
           field "primaryRevenue" "Primary Revenue" "currency" 0 "Income";
           field "secondaryRevenue" "Secondary Revenue" "currency" 0 "Income"
         ];
         cat_operating := Some [
           field "utilities" "Utilities" "currency" 0 "Fixed Costs";
           field "insurance" "Insurance" "currency" 0 "Fixed Costs";
           field "maintenance" "Maintenance" "currency" 0 "Variable Costs";
           field "marketing" "Marketing" "currency" 0 "Variable Costs";
           field "other" "Other Costs" "currency" 0 "Variable Costs"
         ];
         cat_staffing := Some [
           field "management" "Management Staff" "number" 0 "Staff";
           field "managementSal" "Management Salary" "currency" 0 "Staff";
           field "operational" "Operational Staff" "number" 0 "Staff";
           field "operationalSal" "Operational Salary" "currency" 0 "Staff"
         ]
       |} |}.

Definition DEFAULT_PROJECT_TYPES : gmap string ProjectTypeConfig :=
  list_to_map [
    ("padel", padel_template);
    ("gym", gym_template);
    ("conference", conference_template);
    ("saas", saas_template);
    ("ecommerce", ecommerce_template);
    ("consulting", consulting_template);
    ("generic", generic_template)
  ].

(* ===================================================================== *)
(** ** The registry: class ProjectTypeManager ([src/config.js]) *)
(* ===================================================================== *)

(** The state the class works on: its [customTypes] object, the entry
    ['customProjectTypes'] of [localStorage] (the object last saved; the
    JSON text itself is not modelled) and the lines written with
    [console.warn].  Ids are ordinary property names, not names inherited
    from [Object.prototype]. *)
Record ProjectTypeManager := {
  customTypes : gmap string ProjectTypeConfig;
  localStorage : option (gmap string ProjectTypeConfig);
  console : list string
}.

(** [importConfiguration]'s argument; only its [custom] property is read,
    [None] when it is absent or not an object. *)
Record ConfigData := {
  custom : option (gmap string ProjectTypeConfig)
}.

Module Registry.

(** A method: runs on the manager's state and returns normally or throws;
    the state is the one reached when it stopped. *)
Definition M (A : Type) : Type :=
  ProjectTypeManager -> (exn + A) * ProjectTypeManager.

Definition ret {A} (a : A) : M A := fun m => (inr a, m).
Definition throw {A} (e : exn) : M A := fun m => (inl e, m).
Definition bind {A B} (c : M A) (k : A -> M B) : M B :=
  fun m => match c m with
           | (inr a, m') => k a m'
           | (inl e, m') => (inl e, m')
           end.
Definition lift {A} (r : exn + A) : M A := fun m => (r, m).

(** [new ProjectTypeManager()] with [stored] under 'customProjectTypes'. *)
Definition new (stored : option (gmap string ProjectTypeConfig))
  : ProjectTypeManager :=
  {| customTypes := default ∅ stored; localStorage := stored; console := [] |}.

Definition saveCustomTypes : M unit :=
  fun m => (inr tt, {| customTypes := customTypes m;
                       localStorage := Some (customTypes m);
                       console := console m |}).

Definition warn (line : string) : M unit :=
  fun m => (inr tt, {| customTypes := customTypes m;
                       localStorage := localStorage m;
                       console := (console m ++ [line])%list |}).

Definition setCustomTypes (c : gmap string ProjectTypeConfig) : M unit :=
  fun m => (inr tt, {| customTypes := c;
                       localStorage := localStorage m;
                       console := console m |}).

(** [{ ...DEFAULT_PROJECT_TYPES, ...this.customTypes }]: on a common key
    the later spread, [customTypes], wins. *)
Definition getAllProjectTypes (m : ProjectTypeManager)
  : gmap string ProjectTypeConfig :=
  customTypes m ∪ DEFAULT_PROJECT_TYPES.

(** [allTypes[id] || null] *)
Definition getProjectType (m : ProjectTypeManager) (id : string)
  : option ProjectTypeConfig :=
  getAllProjectTypes m !! id.

(** [!s || typeof s !== 'string'] for a property that is absent or a
    string. *)
Definition missing (s : option string) : bool :=
  match s with
  | Some v => String.eqb v EmptyString
  | None => true
  end.

Definition requiredCategories : list (string * (Categories -> option (list FieldSpec))) :=
  [("investment", cat_investment); ("revenue", cat_revenue);
   ("operating", cat_operating); ("staffing", cat_staffing)].

Fixpoint validateCategories (c : Categories)
  (required : list (string * (Categories -> option (list FieldSpec))))
  : exn + unit :=
  match required with
  | [] => inr tt
  | (categoryType, get) :: rest =>
      match get c with
      | None => inl (Error ("Project type must have " ++ categoryType ++ " category as array"))
      | Some _ => validateCategories c rest
      end
  end.

Definition validateProjectTypeConfig (config : ProjectTypeConfig) : exn + unit :=
  if missing (pt_id config) then inl (Error "Project type must have a valid ID")
  else if missing (pt_name config) then inl (Error "Project type must have a valid name")
  else match pt_categories config with
       | None => inl (Error "Project type must have categories")
       | Some c => validateCategories c requiredCategories
       end.

Definition setProjectType (id : string) (config : ProjectTypeConfig) : M unit :=
  match DEFAULT_PROJECT_TYPES !! id with
  | Some _ => throw (Error ("Cannot override default project type: " ++ id))
  | None =>
      bind (lift (validateProjectTypeConfig config)) (fun _ =>
      bind (fun m => setCustomTypes (<[id := config]> (customTypes m)) m) (fun _ =>
      saveCustomTypes))
  end.

Definition deleteProjectType (id : string) : M unit :=
  match DEFAULT_PROJECT_TYPES !! id with
  | Some _ => throw (Error ("Cannot delete default project type: " ++ id))
  | None =>
      bind (fun m => setCustomTypes (delete id (customTypes m)) m) (fun _ =>
      saveCustomTypes)
  end.

(** [JSON.parse(JSON.stringify(template))] on the modelled properties:
    strings, booleans and finite numbers come back as they are, [-0] as
    [0], NaN and the infinities as [null]. *)
Definition cloneDefault (d : option prim) : option prim :=
  match d with
  | Some (PNum (S754_zero _)) => Some (PNum 0)
  | Some (PNum (S754_finite s m e)) => d
  | Some (PNum _) => None
  | Some (PBool _) => d
  | None => None
  end.

Definition cloneField (f : FieldSpec) : FieldSpec :=
  {| f_id := f_id f; f_name := f_name f; f_type := f_type f;
     f_defaultValue := cloneDefault (f_defaultValue f); f_group := f_group f |}.

Definition cloneCategories (c : Categories) : Categories :=
  {| cat_investment := option_map (map cloneField) (cat_investment c);
     cat_revenue := option_map (map cloneField) (cat_revenue c);
     cat_operating := option_map (map cloneField) (cat_operating c);
     cat_staffing := option_map (map cloneField) (cat_staffing c) |}.

(** Template interpolation of a property that is absent or a string. *)
Definition interpolate (s : option string) : string :=
  match s with
  | Some v => v
  | None => "undefined"
  end.

Definition createFromTemplate (templateId newId newName : string)
  : M ProjectTypeConfig :=
  fun m =>
    match getProjectType m templateId with
    | None => throw (Error ("Template not found: " ++ templateId)) m
    | Some template =>
        let newConfig :=
          {| pt_id := Some newId;
             pt_name := Some newName;
             pt_description :=
               Some ("Custom " ++ newName ++ " based on " ++ interpolate (pt_name template));
             pt_businessType := pt_businessType template;
             pt_categories := option_map cloneCategories (pt_categories template) |} in
        bind (setProjectType newId newConfig) (fun _ => ret newConfig) m
    end.

(** The loop of [importConfiguration]: each entry is validated inside
    [try]; a failure is caught, reported with [console.warn], and the loop
    goes on to the next entry. *)
Fixpoint validateEntries (entries : list (string * ProjectTypeConfig)) : M unit :=
  match entries with
  | [] => ret tt
  | (id, config) :: rest =>
      bind (match validateProjectTypeConfig config with
            | inl e => warn ("Skipping invalid project type " ++ id ++ ": " ++ exnMessage e)
            | inr _ => ret tt
            end)
           (fun _ => validateEntries rest)
  end.

Definition importConfiguration (configData : ConfigData) : M unit :=
  match custom configData with
  | Some c =>
      bind (validateEntries (map_to_list c)) (fun _ =>
      bind (setCustomTypes c) (fun _ =>
      saveCustomTypes))
  | None => ret tt
  end.

End Registry.

(* ===================================================================== *)
(** ** The engine: class PLCalculationEngine ([src/unnamed/part_001]) *)
(* ===================================================================== *)

Record Revenue := {
  rev_annual : float64;
  rev_monthly : float64;
  rev_daily : float64
}.

Record Costs := {
  cost_annual : float64;
  cost_monthly : float64;
  cost_operating : float64;
  cost_staffing : float64
}.

(** The object [calculateROI] returns; its early return carries no
    [investment] and no [annualProfit]. *)
Record ROI := {
  roi_paybackYears : float64;
  roi_roiPercentage : float64;
  roi_breakEvenMonth : float64;
  roi_investment : option float64;
  roi_annualProfit : option float64
}.

(** The result object of [calculateProjectPL].  Its [breakdown] is not
    modelled: it is display detail that three further methods recompute
    from the same schema and bag; they write no other property of the
    result, and they iterate only the [operating] and [staffing] arrays
    that [calculateCosts] has iterated before them, so they throw nothing
    that was not thrown already. *)
Record CalculationResult := {
  r_typeId : string;
  r_typeName : option string;
  r_formData : ValueBag;
  r_revenue : Revenue;
  r_costs : Costs;
  r_investment : float64;
  r_profit : float64;
  r_monthlyProfit : float64;
  r_roi : ROI
}.

(** An entry of the [roles] map of [calculateStaffingCosts]. *)
Record Role := {
  role_count : prim;
  role_salary : prim
}.

(** The optional argument of [calculateCombinedPL]. *)
Record Adjustments := {
  adj_revenue : option prim;
  adj_costs : option prim
}.

Record ProjectSummary := {
  ps_typeId : string;
  ps_typeName : option string;
  ps_revenue : float64;
  ps_costs : float64;
  ps_profit : float64;
  ps_investment : float64
}.

Record Totals := {
  tot_revenue : float64;
  tot_costs : float64;
  tot_profit : float64;
  tot_investment : float64;
  tot_roi : float64;
  tot_paybackYears : float64
}.

Record CombinedPL := {
  projects : list ProjectSummary;
  totals : Totals
}.

(** The two [Map]s of the engine. *)
Record PLCalculationEngine := {
  projectTypes : gmap string ValueBag;
  calculations : gmap string CalculationResult
}.

Module Engine.

Local Open Scope js_scope.

Definition bindE {A B} (r : exn + A) (k : A -> exn + B) : exn + B :=
  match r with
  | inr a => k a
  | inl e => inl e
  end.

(** [for (const field of config)]: iterating [undefined] throws. *)
Definition iterate (config : option (list FieldSpec)) : exn + list FieldSpec :=
  match config with
  | Some fields => inr fields
  | None => inl TypeError
  end.

(** [projectType.categories.<category>]: reading a property of an absent
    [categories] throws. *)
Definition category (projectType : ProjectTypeConfig)
  (get : Categories -> option (list FieldSpec)) : exn + option (list FieldSpec) :=
  match pt_categories projectType with
  | Some c => inr (get c)
  | None => inl TypeError
  end.

(** [projectType.id === id] *)
Definition idIs (projectType : ProjectTypeConfig) (id : string) : bool :=
  match pt_id projectType with
  | Some i => String.eqb i id
  | None => false
  end.

(** Helper to safely get value from data with fallback. *)
Definition getValue (data : ValueBag) (key : string) (defaultValue : prim) : prim :=
  match data !! key with
  | Some value =>
      match value with
      | JNum x => PNum x
      | _ =>
          let parsed := Js.parseFloat value in
          if Float64.truthy parsed then PNum parsed else defaultValue
      end
  | None => defaultValue
  end.

Definition calculatePadelRevenue (config : option (list FieldSpec)) (data : ValueBag)
  : float64 :=
  let peakHours := getValue data "peakHours" 0 in
  let peakRate := getValue data "peakRate" 0 in
  let peakUtil := getValue data "peakUtil" 0 / 100 in
  let offHours := getValue data "offHours" 0 in
  let offRate := getValue data "offRate" 0 in
  let offUtil := getValue data "offUtil" 0 / 100 in
  let courts := getValue data "courts" 1 in
  let days := getValue data "days" 7 in
  let weeks := getValue data "weeks" 52 in
  let peakRevenue := peakHours * peakRate * days * weeks * courts * peakUtil in
  let offRevenue := offHours * offRate * days * weeks * courts * offUtil in
  peakRevenue + offRevenue.

(** [for (let month = 1; month <= 12; month++)] *)
Definition months : list float64 := [1; 2; 3; 4; 5; 6; 7; 8; 9; 10; 11; 12].

Definition calculateGymRevenue (config : option (list FieldSpec)) (data : ValueBag)
  : float64 :=
  let weeklyRevenue := getValue data "weekMembers" 0 * getValue data "weekFee" 0 * 52 in
  let monthlyRevenue := getValue data "monthMembers" 0 * getValue data "monthFee" 0 * 12 in
  let annualRevenue := getValue data "annualMembers" 0 * getValue data "annualFee" 0 in
  let totalRevenue := weeklyRevenue + monthlyRevenue + annualRevenue in
  if Js.ToBoolean (getValue data "rampUp" (PBool false)) then
    let rampDuration := getValue data "rampDuration" 0 in
    let rampEffect := getValue data "rampEffect" 100 / 100 in
    let monthlyBase := totalRevenue / 12 in
    fold_left
      (fun (adjustedRevenue : float64) (month : float64) =>
         if month <=? rampDuration
         then adjustedRevenue + monthlyBase * rampEffect
         else adjustedRevenue + monthlyBase)
      months 0
  else totalRevenue.

Definition calculateGenericRevenue (config : option (list FieldSpec)) (data : ValueBag)
  : exn + float64 :=
  bindE (iterate config) (fun fields =>
  inr (fold_left
         (fun (totalRevenue : float64) (field : FieldSpec) =>
            if String.eqb (f_type field) "currency"
               && Str.includes (Str.toLowerCase (f_id field)) "revenue"
            then totalRevenue
                 + getValue data (f_id field) (Js.orElse (f_defaultValue field) 0)
            else totalRevenue)
         fields 0)).

Definition calculateEventRevenue (config : option (list FieldSpec)) (data : ValueBag)
  : float64 :=
  let capacity := getValue data "capacity" 0 in
  let ticketPrice := getValue data "ticketPrice" 0 in
  let occupancyRate := getValue data "occupancyRate" 100 / 100 in
  let eventsPerYear := getValue data "eventsPerYear" 1 in
  let sponsorship := getValue data "sponsorship" 0 in
  let ticketRevenue := capacity * ticketPrice * occupancyRate * eventsPerYear in
  ticketRevenue + sponsorship.

Definition calculateSaaSRevenue (config : option (list FieldSpec)) (data : ValueBag)
  : float64 :=
  let basicUsers := getValue data "basicUsers" 0 in
  let basicPrice := getValue data "basicPrice" 0 in
  let proUsers := getValue data "proUsers" 0 in
  let proPrice := getValue data "proPrice" 0 in
  let churnRate := getValue data "churnRate" 0 / 100 in
  let growthRate := getValue data "growthRate" 0 / 100 in
  let avgBasicUsers := basicUsers * (1 - churnRate / 2) in
  let avgProUsers := proUsers * (1 - churnRate / 2) in
  let monthlyRevenue := (avgBasicUsers * basicPrice) + (avgProUsers * proPrice) in
  monthlyRevenue * 12.

Definition calculateEcommerceRevenue (config : option (list FieldSpec)) (data : ValueBag)
  : float64 :=
  let avgOrderValue := getValue data "avgOrderValue" 0 in
  let ordersPerMonth := getValue data "ordersPerMonth" 0 in
  let grossMargin := getValue data "grossMargin" 100 / 100 in
  let returnRate := getValue data "returnRate" 0 / 100 in
  let grossRevenue := avgOrderValue * ordersPerMonth * 12 in
  let netRevenue := grossRevenue * (1 - returnRate) * grossMargin in
  netRevenue.

Definition calculateConsultingRevenue (config : option (list FieldSpec)) (data : ValueBag)
  : float64 :=
  let hourlyRate := getValue data "hourlyRate" 0 in
  let billableHours := getValue data "billableHours" 0 in
  let utilizationRate := getValue data "utilizationRate" 100 / 100 in
  let weeksPerYear := getValue data "weeksPerYear" 50 in
  let totalBillableHours := billableHours * weeksPerYear * utilizationRate in
  totalBillableHours * hourlyRate.

Definition calculateEducationRevenue (config : option (list FieldSpec)) (data : ValueBag)
  : float64 :=
  let studentCapacity := getValue data "studentCapacity" 0 in
  let tuitionFee := getValue data "tuitionFee" 0 in
  let sessionsPerYear := getValue data "sessionsPerYear" 1 in
  let occupancyRate := getValue data "occupancyRate" 100 / 100 in
  studentCapacity * tuitionFee * sessionsPerYear * occupancyRate.

Definition calculateRentalRevenue (config : option (list FieldSpec)) (data : ValueBag)
  : float64 :=
  let vehicles := getValue data "vehicles" 0 in
  let dailyRate := getValue data "dailyRate" 0 in
  let utilizationRate := getValue data "utilizationRate" 100 / 100 in
  let averageRental := getValue data "averageRental" 1 in
  let totalPossibleDays := vehicles * 365 in
  let utilizedDays := totalPossibleDays * utilizationRate in
  utilizedDays * dailyRate.

Definition calculatePromotionRevenue (config : option (list FieldSpec)) (data : ValueBag)
  : float64 :=
  let merchants := getValue data "merchants" 0 in
  let avgDealValue := getValue data "avgDealValue" 0 in
  let dealsPerMonth := getValue data "dealsPerMonth" 0 in
  let commission := getValue data "commission" 0 / 100 in
  let redemptionRate := getValue data "redemptionRate" 100 / 100 in
  let monthlyDeals := merchants * dealsPerMonth in
  let redeemedDeals := monthlyDeals * redemptionRate in
  let monthlyRevenue := redeemedDeals * avgDealValue * commission in
  monthlyRevenue * 12.

Definition calculateRealEstateRevenue (config : option (list FieldSpec)) (data : ValueBag)
  : float64 :=
  let monthlyRent := getValue data "monthlyRent" 0 in
  let occupancyRate := getValue data "occupancyRate" 100 / 100 in
  let rentIncrease := getValue data "rentIncrease" 0 / 100 in
  let otherIncome := getValue data "otherIncome" 0 in
  let baseAnnualRent := monthlyRent * 12 * occupancyRate in
  let adjustedAnnualRent := baseAnnualRent * (1 + rentIncrease / 2) in
  adjustedAnnualRent + otherIncome.

(** The literal [0.5]. *)
Definition half : float64 := Eval vm_compute in Float64.of_decimal false 5 (-1).

Definition calculateCapExRevenue (config : option (list FieldSpec)) (data : ValueBag)
  : float64 :=
  let costSavings := getValue data "costSavings" 0 in
  let revenueIncrease := getValue data "revenueIncrease" 0 in
  let implementationTime := getValue data "implementationTime" 6 in
  let rampUpPeriod := getValue data "rampUpPeriod" 3 in
  let totalImplementationTime := implementationTime + rampUpPeriod in
  if totalImplementationTime >=? 12 then 0
  else
    let monthsWithBenefits := 12 - totalImplementationTime in
    let rampUpFactor := if rampUpPeriod >? 0 then half else 1 in
    (costSavings + revenueIncrease) * (monthsWithBenefits / 12) * rampUpFactor.

Definition calculateSubscriptionRevenue (config : option (list FieldSpec)) (data : ValueBag)
  : float64 :=
  let basicSubs := getValue data "basicSubs" 0 in
  let basicPrice := getValue data "basicPrice" 0 in
  let premiumSubs := getValue data "premiumSubs" 0 in
  let premiumPrice := getValue data "premiumPrice" 0 in
  let churnRate := getValue data "churnRate" 0 / 100 in
  let growthRate := getValue data "growthRate" 0 / 100 in
  let effectiveBasicSubs := basicSubs * (1 - churnRate + growthRate) in
  let effectivePremiumSubs := premiumSubs * (1 - churnRate + growthRate) in
  (effectiveBasicSubs * basicPrice * 12) + (effectivePremiumSubs * premiumPrice * 12).

Definition calculateLicensingRevenue (config : option (list FieldSpec)) (data : ValueBag)
  : float64 :=
  let licensees := getValue data "licensees" 0 in
  let royaltyRate := getValue data "royaltyRate" 0 / 100 in
  let licenseeRevenue := getValue data "licenseeRevenue" 0 in
  let upfrontFees := getValue data "upfrontFees" 0 in
  let royaltyRevenue := licensees * licenseeRevenue * royaltyRate in
  let totalUpfrontFees := licensees * upfrontFees in
  royaltyRevenue + totalUpfrontFees.

Definition calculatePartnershipRevenue (config : option (list FieldSpec)) (data : ValueBag)
  : float64 :=
  let partners := getValue data "partners" 0 in
  let avgPartnerRevenue := getValue data "avgPartnerRevenue" 0 in
  let revenueShare := getValue data "revenueShare" 0 / 100 in
  let partnerGrowth := getValue data "partnerGrowth" 0 / 100 in
  let effectivePartnerRevenue := avgPartnerRevenue * (1 + partnerGrowth) in
  partners * effectivePartnerRevenue * revenueShare.

Definition calculateInvestmentRevenue (config : option (list FieldSpec)) (data : ValueBag)
  : float64 :=
  let initialCapital := getValue data "initialCapital" 0 in
  let expectedReturn := getValue data "expectedReturn" 0 / 100 in
  let dividendYield := getValue data "dividendYield" 0 / 100 in
  let capitalGains := getValue data "capitalGains" 0 / 100 in
  let dividendIncome := initialCapital * dividendYield in
  let capitalGainsIncome := initialCapital * capitalGains in
  dividendIncome + capitalGainsIncome.

Definition calculateOperationalRevenue (config : option (list FieldSpec)) (data : ValueBag)
  : float64 :=
  let costSavings := getValue data "costSavings" 0 in
  let efficiencyGain := getValue data "efficiencyGain" 0 / 100 in
  let timeReduction := getValue data "timeReduction" 0 / 100 in
  let qualityImprovement := getValue data "qualityImprovement" 0 / 100 in
  let additionalBenefits :=
    costSavings * (efficiencyGain + timeReduction + qualityImprovement) * half in
  costSavings + additionalBenefits.

Definition calculateRecurringRevenue (config : option (list FieldSpec)) (data : ValueBag)
  : float64 :=
  let contracts := getValue data "contracts" 0 in
  let avgContractValue := getValue data "avgContractValue" 0 in
  let renewalRate := getValue data "renewalRate" 0 / 100 in
  let growthRate := getValue data "growthRate" 0 / 100 in
  let effectiveContracts := contracts * renewalRate * (1 + growthRate) in
  effectiveContracts * avgContractValue * 12.

(** The formula is chosen by the schema's own [id]. *)
Definition calculateRevenue (projectType : ProjectTypeConfig) (data : ValueBag)
  : exn + Revenue :=
  bindE (category projectType cat_revenue) (fun revenueConfig =>
  bindE
    (     if idIs projectType "padel"
       then inr (calculatePadelRevenue revenueConfig data)
     else if idIs projectType "gym"
       then inr (calculateGymRevenue revenueConfig data)
     else if idIs projectType "conference"
       then inr (calculateEventRevenue revenueConfig data)
     else if idIs projectType "saas"
       then inr (calculateSaaSRevenue revenueConfig data)
     else if idIs projectType "ecommerce"
       then inr (calculateEcommerceRevenue revenueConfig data)
     else if idIs projectType "consulting"
       then inr (calculateConsultingRevenue revenueConfig data)
     else if idIs projectType "workshop"
       then inr (calculateEducationRevenue revenueConfig data)
     else if idIs projectType "carRental"
       then inr (calculateRentalRevenue revenueConfig data)
     else if idIs projectType "couponPlatform"
       then inr (calculatePromotionRevenue revenueConfig data)
     else if idIs projectType "realEstate"
       then inr (calculateRealEstateRevenue revenueConfig data)
     else if idIs projectType "capexInvestment"
       then inr (calculateCapExRevenue revenueConfig data)
     else if idIs projectType "subscriptionService"
       then inr (calculateSubscriptionRevenue revenueConfig data)
     else if idIs projectType "licensingBusiness"
       then inr (calculateLicensingRevenue revenueConfig data)
     else if idIs projectType "partnershipBusiness"
       then inr (calculatePartnershipRevenue revenueConfig data)
     else if idIs projectType "investmentPortfolio"
       then inr (calculateInvestmentRevenue revenueConfig data)
     else if idIs projectType "operationalOptimization"
       then inr (calculateOperationalRevenue revenueConfig data)
     else if idIs projectType "recurringService"
       then inr (calculateRecurringRevenue revenueConfig data)
     else calculateGenericRevenue revenueConfig data)
    (fun annualRevenue : float64 =>
  inr {| rev_annual := annualRevenue;
         rev_monthly := annualRevenue / 12;
         rev_daily := annualRevenue / 365 |})).

Definition calculateOperatingCosts (operatingConfig : option (list FieldSpec))
  (data : ValueBag) : exn + float64 :=
  bindE (iterate operatingConfig) (fun fields =>
  inr (fold_left
         (fun (totalCosts : float64) (field : FieldSpec) =>
            if String.eqb (f_type field) "currency" then
              let cost : prim :=
                getValue data (f_id field) (Js.orElse (f_defaultValue field) 0) in
              let cost : prim :=
                if Str.includes (f_id field) "event"
                   && Js.truthyProp (data !! "eventsPerYear")
                then PNum (cost * getValue data "eventsPerYear" 1)
                else cost in
              totalCosts + cost
            else totalCosts)
         fields 0)).

(** The [roles] map, in insertion order. *)
Definition rolesHas (roles : list (string * Role)) (name : string) : bool :=
  existsb (fun entry => String.eqb (fst entry) name) roles.

Definition rolesUpdate (roles : list (string * Role)) (name : string)
  (f : Role -> Role) : list (string * Role) :=
  map (fun entry => if String.eqb (fst entry) name
                    then (fst entry, f (snd entry)) else entry) roles.

Definition setSalary (salary : prim) (role : Role) : Role :=
  {| role_count := role_count role; role_salary := salary |}.

Definition setCount (count : prim) (role : Role) : Role :=
  {| role_count := count; role_salary := role_salary role |}.

(** The body of the first loop of [calculateStaffingCosts]. *)
Definition staffingField (data : ValueBag) (roles : list (string * Role))
  (field : FieldSpec) : list (string * Role) :=
  let id := f_id field in
  let baseName := Str.stripSuffix (Str.stripSuffix id "Sal") "Rate" in
  let roles :=
    if rolesHas roles baseName then roles
    else (roles ++ [(baseName, {| role_count := 0; role_salary := 0 |})])%list in
  if Str.endsWith id "Sal" || Str.includes id "Salary" || Str.endsWith id "Rate" then
    let salary : prim := getValue data id (Js.orElse (f_defaultValue field) 0) in
    let salary : prim :=
      if Str.includes id "event" && Js.truthyProp (data !! "eventsPerYear")
      then PNum (salary * getValue data "eventsPerYear" 1)
      else salary in
    let salary : prim :=
      if String.eqb id "managementFee" && Js.truthyProp (data !! "propertyManager") then
        let monthlyRent := getValue data "monthlyRent" 0 in
        let occupancyRate := getValue data "occupancyRate" 100 / 100 in
        let managementFeePercent := getValue data "managementFee" 0 / 100 in
        if Js.ToBoolean (getValue data "propertyManager" (PBool false))
        then PNum (monthlyRent * 12 * occupancyRate * managementFeePercent)
        else 0
      else salary in
    let salary : prim :=
      if String.eqb id "handymanRate" then
        let hours := getValue data "handymanHours" 0 in
        PNum (salary * hours * 12)
      else salary in
    let salary : prim :=
      if String.eqb id "pmRate" then
        let hours := getValue data "projectManager" 0 in
        PNum (salary * hours)
      else salary in
    let salary : prim :=
      if String.eqb id "techRate" then
        let hours := getValue data "technicalStaff" 0 in
        PNum (salary * hours)
      else salary in
    rolesUpdate roles baseName (setSalary salary)
  else if String.eqb (f_type field) "number" then
    rolesUpdate roles baseName
      (setCount (getValue data id (Js.orElse (f_defaultValue field) 0)))
  else if String.eqb (f_type field) "boolean" then
    rolesUpdate roles baseName
      (setCount (if Js.ToBoolean (getValue data id (PBool false)) then 1 else 0))
  else roles.

(** The body of the second loop. *)
Definition staffingRole (totalCosts : float64) (entry : string * Role) : float64 :=
  let roleName := fst entry in
  let role := snd entry in
  if String.eqb roleName "managementFee" || String.eqb roleName "handymanRate"
     || String.eqb roleName "pmRate" || String.eqb roleName "techRate"
  then totalCosts
  else if String.eqb roleName "ongoingStaff"
  then totalCosts + role_salary role
  else totalCosts + role_count role * role_salary role.

Definition calculateStaffingCosts (staffingConfig : option (list FieldSpec))
  (data : ValueBag) : exn + float64 :=
  bindE (iterate staffingConfig) (fun fields =>
  let roles := fold_left (staffingField data) fields [] in
  let totalCosts := fold_left staffingRole roles 0 in
  let pmCost := getValue data "projectManager" 0 * getValue data "pmRate" 0 in
  let techCost := getValue data "technicalStaff" 0 * getValue data "techRate" 0 in
  let ongoingCost := getValue data "ongoingStaff" 0 in
  inr (match data !! "projectManager" with
       | Some _ => pmCost + techCost + ongoingCost
       | None => totalCosts
       end)).

Definition calculateCosts (projectType : ProjectTypeConfig) (data : ValueBag)
  : exn + Costs :=
  bindE (category projectType cat_operating) (fun operatingConfig =>
  bindE (calculateOperatingCosts operatingConfig data) (fun operatingCosts =>
  bindE (category projectType cat_staffing) (fun staffingConfig =>
  bindE (calculateStaffingCosts staffingConfig data) (fun staffingCosts =>
  let totalAnnual : float64 := operatingCosts + staffingCosts in
  inr {| cost_annual := totalAnnual;
         cost_monthly := totalAnnual / 12;
         cost_operating := operatingCosts;
         cost_staffing := staffingCosts |})))).

Definition calculateInvestment (projectType : ProjectTypeConfig) (data : ValueBag)
  : exn + float64 :=
  bindE (category projectType cat_investment) (fun investmentConfig =>
  bindE (iterate investmentConfig) (fun fields =>
  inr (fold_left
         (fun (totalInvestment : float64) (field : FieldSpec) =>
            if String.eqb (f_type field) "currency" then
              let value : prim :=
                getValue data (f_id field) (Js.orElse (f_defaultValue field) 0) in
              let value : prim :=
                if String.eqb (f_id field) "courtCost"
                   && Js.truthyProp (data !! "courts")
                then PNum (value * getValue data "courts" 1)
                else value in
              totalInvestment + value
            else totalInvestment)
         fields 0))).

(** [calculateROI(results)] reads [results.investment] and
    [results.profit]. *)
Definition calculateROI (investment annualProfit : float64) : ROI :=
  if investment <=? 0 then
    {| roi_paybackYears := Float64.Infinity;
       roi_roiPercentage := 0;
       roi_breakEvenMonth := Float64.Infinity;
       roi_investment := None;
       roi_annualProfit := None |}
  else
    let paybackYears :=
      if annualProfit >? 0 then Float64.ceil (investment / annualProfit)
      else Float64.Infinity in
    let roiPercentage := (annualProfit / investment) * 100 in
    let breakEvenMonth :=
      if annualProfit >? 0 then Float64.ceil (investment / (annualProfit / 12))
      else Float64.Infinity in
    {| roi_paybackYears := paybackYears;
       roi_roiPercentage := roiPercentage;
       roi_breakEvenMonth := breakEvenMonth;
       roi_investment := Some investment;
       roi_annualProfit := Some annualProfit |}.

(** [calculateProjectPL(typeId, data)]; [mgr] is
    [window.projectTypeManager]. *)
Definition calculateProjectPL (mgr : ProjectTypeManager) (typeId : string)
  (data : ValueBag) : exn + CalculationResult :=
  match Registry.getProjectType mgr typeId with
  | None => inl (Error ("Unknown project type: " ++ typeId))
  | Some projectType =>
      bindE (calculateRevenue projectType data) (fun revenue =>
      bindE (calculateCosts projectType data) (fun costs =>
      bindE (calculateInvestment projectType data) (fun investment =>
      let profit : float64 := rev_annual revenue - cost_annual costs in
      let monthlyProfit : float64 := profit / 12 in
      inr {| r_typeId := typeId;
             r_typeName := pt_name projectType;
             r_formData := data;
             r_revenue := revenue;
             r_costs := costs;
             r_investment := investment;
             r_profit := profit;
             r_monthlyProfit := monthlyProfit;
             r_roi := calculateROI investment profit |})))
  end.

Definition new : PLCalculationEngine :=
  {| projectTypes := ∅; calculations := ∅ |}.

(** [registerProjectType(typeId, data)]: the bag is stored first; when the
    calculation throws, no result is cached. *)
Definition registerProjectType (mgr : ProjectTypeManager) (typeId : string)
  (data : ValueBag) (eng : PLCalculationEngine)
  : (exn + CalculationResult) * PLCalculationEngine :=
  let stored := <[typeId := data]> (projectTypes eng) in
  match calculateProjectPL mgr typeId data with
  | inl e => (inl e, {| projectTypes := stored; calculations := calculations eng |})
  | inr result =>
      (inr result, {| projectTypes := stored;
                      calculations := <[typeId := result]> (calculations eng) |})
  end.

(** [this.calculations.get(typeId) || null] *)
Definition getCalculation (eng : PLCalculationEngine) (typeId : string)
  : option CalculationResult :=
  calculations eng !! typeId.

(** The variables the loop of [calculateCombinedPL] updates. *)
Record Combining := {
  acc_projects : list ProjectSummary;
  acc_totalRevenue : float64;
  acc_totalCosts : float64;
  acc_totalInvestment : float64
}.

Definition combineStep (eng : PLCalculationEngine) (adjustments : Adjustments)
  (acc : Combining) (typeId : string) : Combining :=
  match getCalculation eng typeId with
  | Some calculation =>
      let revAdjust := Js.orElse (adj_revenue adjustments) 1 in
      let costAdjust := Js.orElse (adj_costs adjustments) 1 in
      let adjustedRevenue : float64 := rev_annual (r_revenue calculation) * revAdjust in
      let adjustedCosts : float64 := cost_annual (r_costs calculation) * costAdjust in
      {| acc_projects :=
           (acc_projects acc ++
            [{| ps_typeId := typeId;
                ps_typeName := r_typeName calculation;
                ps_revenue := adjustedRevenue;
                ps_costs := adjustedCosts;
                ps_profit := adjustedRevenue - adjustedCosts;
                ps_investment := r_investment calculation |}])%list;
         acc_totalRevenue := acc_totalRevenue acc + adjustedRevenue;
         acc_totalCosts := acc_totalCosts acc + adjustedCosts;
         acc_totalInvestment := acc_totalInvestment acc + r_investment calculation |}
  | None => acc
  end.

Definition noAdjustments : Adjustments :=
  {| adj_revenue := None; adj_costs := None |}.

Definition calculateCombinedPL (eng : PLCalculationEngine)
  (projectTypeIds : list string) (adjustments : Adjustments) : CombinedPL :=
  let acc :=
    fold_left (combineStep eng adjustments) projectTypeIds
      {| acc_projects := []; acc_totalRevenue := 0;
         acc_totalCosts := 0; acc_totalInvestment := 0 |} in
  let totalRevenue := acc_totalRevenue acc in
  let totalCosts := acc_totalCosts acc in
  let totalInvestment := acc_totalInvestment acc in
  {| projects := acc_projects acc;
     totals :=
       {| tot_revenue := totalRevenue;
          tot_costs := totalCosts;
          tot_profit := totalRevenue - totalCosts;
          tot_investment := totalInvestment;
          tot_roi :=
            if totalInvestment >? 0
            then ((totalRevenue - totalCosts) / totalInvestment) * 100
            else 0;
          tot_paybackYears :=
            if totalRevenue - totalCosts >? 0
            then Float64.ceil (totalInvestment / (totalRevenue - totalCosts))
            else Float64.Infinity |} |}.

End Engine.

(* ===================================================================== *)
(** ** The form's initial bag ([src/unnamed/part_002]) *)
(* ===================================================================== *)

Module UI.

Definition toRaw (v : prim) : jsval :=
  match v with
  | PNum x => JNum x
  | PBool b => JBool b
  end.

Definition initializeCategory (data : ValueBag) (category : list FieldSpec) : ValueBag :=
  fold_left
    (fun (data : ValueBag) (field : FieldSpec) =>
       <[f_id field := toRaw (Js.orElse (f_defaultValue field) 0)]> data)
    category data.

(** [initializeFormData(typeId, projectType)]: every field of the four
    categories set to [field.defaultValue || 0]. *)
Definition initializeFormData (projectType : ProjectTypeConfig) : exn + ValueBag :=
  fold_left
    (fun (data : exn + ValueBag) (categoryType : Categories -> option (list FieldSpec)) =>
       Engine.bindE data (fun data =>
       Engine.bindE (Engine.category projectType categoryType) (fun category =>
       Engine.bindE (Engine.iterate category) (fun fields =>
       inr (initializeCategory data fields)))))
    [cat_investment; cat_revenue; cat_operating; cat_staffing]
    (inr ∅).

End UI.

(* ===================================================================== *)
(** ** Reachable states of the registry *)
(* ===================================================================== *)

(** A call of one of the mutating methods. *)
Inductive RegistryCall :=
| SetProjectType (id : string) (config : ProjectTypeConfig)
| DeleteProjectType (id : string)
| CreateFromTemplate (templateId newId newName : string)
| ImportConfiguration (configData : ConfigData).

(** The state after a call, whether it returned or threw. *)
Definition call (m : ProjectTypeManager) (c : RegistryCall) : ProjectTypeManager :=
  match c with
  | SetProjectType id config => snd (Registry.setProjectType id config m)
  | DeleteProjectType id => snd (Registry.deleteProjectType id m)
  | CreateFromTemplate templateId newId newName =>
      snd (Registry.createFromTemplate templateId newId newName m)
  | ImportConfiguration configData => snd (Registry.importConfiguration configData m)
  end.

Definition calls (m : ProjectTypeManager) (cs : list RegistryCall) : ProjectTypeManager :=
  fold_left call cs m.

Definition isImport (c : RegistryCall) : bool :=
  match c with
  | ImportConfiguration _ => true
  | _ => false
  end.

(** No custom template sits under the id of a built-in. *)
Definition builtinsUnshadowed (m : ProjectTypeManager) : Prop :=
  forall id, is_Some (DEFAULT_PROJECT_TYPES !! id) -> customTypes m !! id = None.

(* ===================================================================== *)
(** ** What the properties are stated with *)
(* ===================================================================== *)

Module Spec.

Local Open Scope js_scope.


(** The default a field declares, [0] when it declares none (or a falsy
    one): [field.defaultValue || 0]. *)
Definition declaredDefault (field : FieldSpec) : prim :=
  Js.orElse (f_defaultValue field) 0.

Definition isCurrency (field : FieldSpec) : bool :=
  String.eqb (f_type field) "currency".

(** A currency field whose id contains "revenue", whatever the case. *)
Definition isRevenueField (field : FieldSpec) : bool :=
  isCurrency field && Str.includes (Str.toLowerCase (f_id field)) "revenue".


(** The ids for which [calculateRevenue] has a formula of its own. *)
Definition bespokeIds : list string :=
  ["padel"; "gym"; "conference"; "saas"; "ecommerce"; "consulting"; "workshop";
   "carRental"; "couponPlatform"; "realEstate"; "capexInvestment";
   "subscriptionService"; "licensingBusiness"; "partnershipBusiness";
   "investmentPortfolio"; "operationalOptimization"; "recurringService"].

Definition hasBespokeFormula (projectType : ProjectTypeConfig) : bool :=
  existsb (Engine.idIs projectType) bespokeIds.

(** A number that is [+0], [-0] or NaN. *)
Definition zeroOrNaN (x : float64) : Prop :=
  x = Float64.NaN \/ exists s, x = S754_zero s.

(** The totals of a combination to which no project contributed. *)
Definition emptyCombination : CombinedPL :=
  {| projects := [];
     totals := {| tot_revenue := 0; tot_costs := 0; tot_profit := 0;
                  tot_investment := 0; tot_roi := 0;
                  tot_paybackYears := Float64.Infinity |} |}.

End Spec.

(* ===================================================================== *)
(** ** Inputs the properties are run on *)
(* ===================================================================== *)

Module Sample.

Definition noFields : Categories :=
  {| cat_investment := Some []; cat_revenue := Some [];
     cat_operating := Some []; cat_staffing := Some [] |}.

(** An entry with an id and nothing else: it fails validation. *)
Definition broken : ProjectTypeConfig :=
  {| pt_id := Some "broken"; pt_name := None; pt_description := None;
     pt_businessType := None; pt_categories := None |}.

(** A well-formed custom template. *)
Definition studio : ProjectTypeConfig :=
  {| pt_id := Some "studio"; pt_name := Some "Yoga Studio";
     pt_description := None; pt_businessType := Some "member";
     pt_categories :=
       Some {| cat_investment := Some [field "mats" "Mats" "currency" 900 "Equipment"];
               cat_revenue :=
                 Some [field "classRevenue" "Class Revenue" "currency" 1000 "Income"];
               cat_operating := Some [field "rent" "Rent" "currency" 600 "Fixed Costs"];
               cat_staffing := Some [] |} |}.

(** A well-formed template that calls itself [gym]. *)
Definition rogueGym : ProjectTypeConfig :=
  {| pt_id := Some "gym"; pt_name := Some "Rogue Gym"; pt_description := None;
     pt_businessType := Some "member"; pt_categories := Some noFields |}.

Definition mixedImport : ConfigData :=
  {| custom := Some {[ "broken" := broken; "studio" := studio ]} |}.

Definition gymImport : ConfigData :=
  {| custom := Some {[ "gym" := rogueGym ]} |}.

(** A fresh manager with nothing in storage. *)
Definition fresh : ProjectTypeManager := Registry.new None.


(** A CapEx bag whose two periods add up to 11 months. *)
Definition elevenMonths : ValueBag :=
  {[ "costSavings" := JNum 24000; "revenueIncrease" := JNum 12000;
     "implementationTime" := JNum 8; "rampUpPeriod" := JNum 3 ]}.

(** The bag the form starts with for a template. *)
Definition defaultsOf (projectType : ProjectTypeConfig) : ValueBag :=
  match UI.initializeFormData projectType with
  | inr data => data
  | inl _ => ∅
  end.

Definition gymDefaults : ValueBag := defaultsOf gym_template.
Definition padelDefaults : ValueBag := defaultsOf padel_template.

(** An engine that has calculated the gym template on its defaults. *)
Definition gymRegistered : PLCalculationEngine :=
  snd (Engine.registerProjectType fresh "gym" gymDefaults Engine.new).

End Sample.

(* ===================================================================== *)
(** ** More of the registry ([src/config.js]) and of its callers *)
(* ===================================================================== *)

(** The object [exportConfiguration] returns. *)
Record ExportedConfiguration := {
  exp_default : gmap string ProjectTypeConfig;
  exp_custom : gmap string ProjectTypeConfig;
  exp_exportDate : string
}.

Module Catalogue.

(** [type.businessType === businessType] *)
Definition businessTypeIs (type : ProjectTypeConfig) (businessType : string) : bool :=
  match pt_businessType type with
  | Some b => String.eqb b businessType
  | None => false
  end.

(** [Object.values(allTypes).filter(...)].  The array is given in the
    enumeration order of the finite map; the key order of the object is not
    modelled. *)
Definition getProjectsByBusinessType (m : ProjectTypeManager) (businessType : string)
  : list ProjectTypeConfig :=
  List.filter (fun type => businessTypeIs type businessType)
    (map snd (map_to_list (Registry.getAllProjectTypes m))).

(** [exportConfiguration()]; [now] is [new Date().toISOString()]. *)
Definition exportConfiguration (now : string) (m : ProjectTypeManager)
  : ExportedConfiguration :=
  {| exp_default := DEFAULT_PROJECT_TYPES;
     exp_custom := customTypes m;
     exp_exportDate := now |}.

(** [JSON.parse(JSON.stringify(config))] on the modelled properties of a
    configuration: only declared defaults can change (see
    [Registry.cloneDefault]). *)
Definition jsonConfig (config : ProjectTypeConfig) : ProjectTypeConfig :=
  {| pt_id := pt_id config;
     pt_name := pt_name config;
     pt_description := pt_description config;
     pt_businessType := pt_businessType config;
     pt_categories := option_map Registry.cloneCategories (pt_categories config) |}.

(** The export of the form ([src/unnamed/part_002], [exportConfiguration]):
    the downloaded file holds [JSON.stringify(config, null, 2)]; this is
    what parsing that file gives back. *)
Definition exportFile (now : string) (m : ProjectTypeManager) : ExportedConfiguration :=
  let config := exportConfiguration now m in
  {| exp_default := jsonConfig <$> exp_default config;
     exp_custom := jsonConfig <$> exp_custom config;
     exp_exportDate := exp_exportDate config |}.

(** The import of the form ([importConfiguration] of the same file): the
    parsed file is handed to the registry, which reads its [custom]. *)
Definition importFile (file : ExportedConfiguration) : Registry.M unit :=
  Registry.importConfiguration {| custom := Some (exp_custom file) |}.

End Catalogue.

(* ===================================================================== *)
(** ** More of the engine ([src/unnamed/part_001]) *)
(* ===================================================================== *)

(** [breakdown.peak] and [breakdown.offPeak]. *)
Record SlotBreakdown := {
  sb_hours : prim;
  sb_rate : prim;
  sb_utilization : prim;
  sb_totalHours : float64;
  sb_utilizedHours : float64;
  sb_revenue : float64
}.

(** An entry of [breakdown.memberships]. *)
Record TierBreakdown := {
  tb_members : prim;
  tb_fee : prim;
  tb_revenue : float64
}.

(** [breakdown.rental]. *)
Record RentalBreakdown := {
  rb_monthlyRent : prim;
  rb_occupancyRate : prim;
  rb_annualRentIncrease : prim;
  rb_effectiveAnnualRent : float64;
  rb_adjustedForIncrease : float64;
  rb_otherIncome : prim;
  rb_totalRevenue : float64
}.

(** [breakdown.benefits]. *)
Record BenefitsBreakdown := {
  bb_annualCostSavings : prim;
  bb_annualRevenueIncrease : prim;
  bb_implementationMonths : prim;
  bb_rampUpMonths : prim;
  bb_totalBenefits : float64;
  bb_firstYearBenefits : float64;
  bb_efficiencyGains : prim;
  bb_qualityImprovement : prim
}.

(** The object [calculateRevenueBreakdown] returns: empty, or with the
    properties of one of its four branches. *)
Inductive RevenueBreakdown :=
| NoDetail
| PadelDetail (peak offPeak : SlotBreakdown)
| GymDetail (weekly monthly annual : TierBreakdown)
| RentalDetail (rental : RentalBreakdown)
| BenefitsDetail (benefits : BenefitsBreakdown).

(** A row of [generateCashFlow]. *)
Record CashFlowRow := {
  cf_month : float64;
  cf_opening : float64;
  cf_inflow : float64;
  cf_outflow : float64;
  cf_netFlow : float64;
  cf_closing : float64
}.

Module Report.

Local Open Scope js_scope.

Definition calculateRevenueBreakdown (projectType : ProjectTypeConfig) (data : ValueBag)
  : RevenueBreakdown :=
  if Engine.idIs projectType "padel" then
    let courts := Engine.getValue data "courts" 1 in
    let days := Engine.getValue data "days" 7 in
    let weeks := Engine.getValue data "weeks" 52 in
    PadelDetail
      {| sb_hours := Engine.getValue data "peakHours" 0;
         sb_rate := Engine.getValue data "peakRate" 0;
         sb_utilization := Engine.getValue data "peakUtil" 0;
         sb_totalHours := Engine.getValue data "peakHours" 0 * days * weeks;
         sb_utilizedHours :=
           Engine.getValue data "peakHours" 0 * days * weeks
           * (Engine.getValue data "peakUtil" 0 / 100);
         sb_revenue :=
           Engine.getValue data "peakHours" 0 * Engine.getValue data "peakRate" 0
           * days * weeks * courts * (Engine.getValue data "peakUtil" 0 / 100) |}
      {| sb_hours := Engine.getValue data "offHours" 0;
         sb_rate := Engine.getValue data "offRate" 0;
         sb_utilization := Engine.getValue data "offUtil" 0;
         sb_totalHours := Engine.getValue data "offHours" 0 * days * weeks;
         sb_utilizedHours :=
           Engine.getValue data "offHours" 0 * days * weeks
           * (Engine.getValue data "offUtil" 0 / 100);
         sb_revenue :=
           Engine.getValue data "offHours" 0 * Engine.getValue data "offRate" 0
           * days * weeks * courts * (Engine.getValue data "offUtil" 0 / 100) |}
  else if Engine.idIs projectType "gym" then
    GymDetail
      {| tb_members := Engine.getValue data "weekMembers" 0;
         tb_fee := Engine.getValue data "weekFee" 0;
         tb_revenue :=
           Engine.getValue data "weekMembers" 0 * Engine.getValue data "weekFee" 0 * 52 |}
      {| tb_members := Engine.getValue data "monthMembers" 0;
         tb_fee := Engine.getValue data "monthFee" 0;
         tb_revenue :=
           Engine.getValue data "monthMembers" 0 * Engine.getValue data "monthFee" 0 * 12 |}
      {| tb_members := Engine.getValue data "annualMembers" 0;
         tb_fee := Engine.getValue data "annualFee" 0;
         tb_revenue :=
           Engine.getValue data "annualMembers" 0 * Engine.getValue data "annualFee" 0 |}
  else if Engine.idIs projectType "realEstate" then
    let monthlyRent := Engine.getValue data "monthlyRent" 0 in
    let occupancyRate := Engine.getValue data "occupancyRate" 100 / 100 in
    let rentIncrease := Engine.getValue data "rentIncrease" 0 / 100 in
    RentalDetail
      {| rb_monthlyRent := monthlyRent;
         rb_occupancyRate := Engine.getValue data "occupancyRate" 0;
         rb_annualRentIncrease := Engine.getValue data "rentIncrease" 0;
         rb_effectiveAnnualRent := monthlyRent * 12 * occupancyRate;
         rb_adjustedForIncrease :=
           monthlyRent * 12 * occupancyRate * (1 + rentIncrease / 2);
         rb_otherIncome := Engine.getValue data "otherIncome" 0;
         rb_totalRevenue :=
           (monthlyRent * 12 * occupancyRate * (1 + rentIncrease / 2))
           + Engine.getValue data "otherIncome" 0 |}
  else if Engine.idIs projectType "capexInvestment" then
    let costSavings := Engine.getValue data "costSavings" 0 in
    let revenueIncrease := Engine.getValue data "revenueIncrease" 0 in
    let implementationTime := Engine.getValue data "implementationTime" 6 in
    let rampUpPeriod := Engine.getValue data "rampUpPeriod" 3 in
    BenefitsDetail
      {| bb_annualCostSavings := costSavings;
         bb_annualRevenueIncrease := revenueIncrease;
         bb_implementationMonths := implementationTime;
         bb_rampUpMonths := rampUpPeriod;
         bb_totalBenefits := costSavings + revenueIncrease;
         bb_firstYearBenefits := Engine.calculateCapExRevenue None data;
         bb_efficiencyGains := Engine.getValue data "efficiencyGains" 0;
         bb_qualityImprovement := Engine.getValue data "qualityImprovement" 0 |}
  else NoDetail.

(** The loop of [generateCashFlow], with [remaining] iterations to go. *)
Fixpoint cashFlowLoop (remaining : nat) (month openingBalance : float64)
  (monthlyRevenue monthlyCosts : float64) : list CashFlowRow :=
  match remaining with
  | O => []
  | S remaining' =>
      let inflow := monthlyRevenue in
      let outflow := monthlyCosts in
      let netFlow : float64 := inflow - outflow in
      let closingBalance : float64 := openingBalance + netFlow in
      {| cf_month := month;
         cf_opening := openingBalance;
         cf_inflow := inflow;
         cf_outflow := outflow;
         cf_netFlow := netFlow;
         cf_closing := closingBalance |}
      :: cashFlowLoop remaining' (month + 1) closingBalance monthlyRevenue monthlyCosts
  end.

(** [generateCashFlow(projectTypeIds, months)] for a whole number of
    months (the callers pass 12): [month] runs from 1 to [months]. *)
Definition generateCashFlow (eng : PLCalculationEngine) (projectTypeIds : list string)
  (months : nat) : list CashFlowRow :=
  let combined := Engine.calculateCombinedPL eng projectTypeIds Engine.noAdjustments in
  let monthlyRevenue : float64 := tot_revenue (totals combined) / 12 in
  let monthlyCosts : float64 := tot_costs (totals combined) / 12 in
  cashFlowLoop months 1 0 monthlyRevenue monthlyCosts.

End Report.

(* ===================================================================== *)
(** ** The form ([src/unnamed/part_002], class DynamicUIGenerator) *)
(* ===================================================================== *)

(** [this.formData], a [Map] from project-type id to value bag. *)
Record DynamicUIGenerator := {
  formData : gmap string ValueBag
}.

Module Form.

Definition isNaN (x : float64) : bool :=
  match x with
  | S754_nan => true
  | _ => false
  end.

(** What [updateFieldValue] stores for a value handed over by the page:
    a boolean as it is, anything else as [parseFloat(value)], 0 when that
    is NaN. *)
Definition converted (value : jsval) : jsval :=
  match value with
  | JBool b => JBool b
  | _ =>
      let numValue := Js.parseFloat value in
      JNum (if isNaN numValue then 0%js else numValue)
  end.

(** [calculateProjectType(typeId)]: nothing without a bag; otherwise the
    bag is registered with the engine, and an exception is caught and
    shown (the display is not modelled). *)
Definition calculateProjectType (mgr : ProjectTypeManager) (typeId : string)
  (ui : DynamicUIGenerator) (eng : PLCalculationEngine) : PLCalculationEngine :=
  match formData ui !! typeId with
  | Some data => snd (Engine.registerProjectType mgr typeId data eng)
  | None => eng
  end.

(** [updateCalculations()], the later of the two definitions in the class
    body; [selected] is [this.selectedProjectType], [None] for [null]. *)
Definition updateCalculations (mgr : ProjectTypeManager) (selected : option string)
  (ui : DynamicUIGenerator) (eng : PLCalculationEngine) : PLCalculationEngine :=
  match selected with
  | Some typeId =>
      if String.eqb typeId EmptyString then eng
      else calculateProjectType mgr typeId ui eng
  | None => eng
  end.

(** [updateFieldValue(typeId, fieldId, value)] *)
Definition updateFieldValue (mgr : ProjectTypeManager) (selected : option string)
  (typeId fieldId : string) (value : jsval)
  (ui : DynamicUIGenerator) (eng : PLCalculationEngine)
  : DynamicUIGenerator * PLCalculationEngine :=
  let data := default ∅ (formData ui !! typeId) in
  let data := <[fieldId := converted value]> data in
  let ui := {| formData := <[typeId := data]> (formData ui) |} in
  (ui, updateCalculations mgr selected ui eng).

(** [name.toLowerCase().replace(/[^a-z0-9]/g, '_')] *)
Definition slugChar (c : ascii) : ascii :=
  let l := Str.lowerChar c in
  let n := nat_of_ascii l in
  if ((97 <=? n) && (n <=? 122) || (48 <=? n) && (n <=? 57))%nat then l else "_"%char.

Fixpoint slug (name : string) : string :=
  match name with
  | EmptyString => EmptyString
  | String c r => String (slugChar c) (slug r)
  end.

(** Template interpolation of a value that is a string or [null]. *)
Definition orNull (s : option string) : string :=
  match s with
  | Some v => v
  | None => "null"
  end.

(** [createCustomTemplate()]: [name] is what [prompt] returned, [None]
    when it was cancelled; [selectedBusinessType] is the selection, [None]
    for [null].  The result is the text of the [alert], if any. *)
Definition createCustomTemplate (name : option string)
  (selectedBusinessType : option string) : Registry.M (option string) :=
  fun m =>
    match name with
    | None => (inr None, m)
    | Some name =>
        if String.eqb name EmptyString then (inr None, m)
        else
          let id := slug name in
          match Registry.getProjectType m "generic" with
          | None => (inr (Some "Failed to create custom template: "), m)
          | Some baseTemplate =>
              let customConfig :=
                {| pt_id := Some id;
                   pt_name := Some name;
                   pt_description :=
                     Some ("Custom " ++ name ++ " business based on "
                           ++ orNull selectedBusinessType ++ " category");
                   pt_businessType := selectedBusinessType;
                   pt_categories :=
                     option_map Registry.cloneCategories (pt_categories baseTemplate) |} in
              match Registry.setProjectType id customConfig m with
              | (inr _, m') => (inr (Some ("Created custom template: " ++ name)), m')
              | (inl error, m') =>
                  (inr (Some ("Failed to create custom template: " ++ exnMessage error)), m')
              end
          end
    end.

End Form.

(* ===================================================================== *)
(** ** What the further properties are stated with *)
(* ===================================================================== *)

Module Notion.

Local Open Scope js_scope.

(** The property names every object inherits from [Object.prototype];
    the model of the registry is for ids that are none of them. *)
Definition prototypeNames : list string :=
  ["constructor"; "__defineGetter__"; "__defineSetter__"; "hasOwnProperty";
   "__lookupGetter__"; "__lookupSetter__"; "isPrototypeOf";
   "propertyIsEnumerable"; "toString"; "valueOf"; "__proto__"; "toLocaleString"].

Definition ordinaryId (id : string) : Prop := ~ In id prototypeNames.

(** A configuration has what [validateProjectTypeConfig] asks for. *)
Definition wellFormed (config : ProjectTypeConfig) : Prop :=
  exists id name inv rev op st,
    pt_id config = Some id /\ id <> EmptyString
    /\ pt_name config = Some name /\ name <> EmptyString
    /\ pt_categories config
       = Some {| cat_investment := Some inv; cat_revenue := Some rev;
                 cat_operating := Some op; cat_staffing := Some st |}.

(** A schema the calculation can run on: the arrays it iterates are there
    (the revenue array is iterated only by the generic formula). *)
Definition computable (projectType : ProjectTypeConfig) : bool :=
  match pt_categories projectType with
  | Some c =>
      match cat_investment c, cat_operating c, cat_staffing c with
      | Some _, Some _, Some _ =>
          match cat_revenue c with
          | Some _ => true
          | None => Spec.hasBespokeFormula projectType
          end
      | _, _, _ => false
      end
  | None => false
  end.

(** No declared default is an infinity. *)
Definition finiteDefault (field : FieldSpec) : bool :=
  match f_defaultValue field with
  | Some (PNum (S754_infinity _)) => false
  | _ => true
  end.

Definition categoryFinite (fields : option (list FieldSpec)) : bool :=
  match fields with
  | Some l => forallb finiteDefault l
  | None => true
  end.

Definition finiteDefaults (config : ProjectTypeConfig) : bool :=
  match pt_categories config with
  | Some c =>
      categoryFinite (cat_investment c) && categoryFinite (cat_revenue c)
      && categoryFinite (cat_operating c) && categoryFinite (cat_staffing c)
  | None => true
  end.

(** Every declared default survives JSON as it is: a finite number other
    than [-0], or a boolean. *)
Definition jsonDefault (field : FieldSpec) : bool :=
  match f_defaultValue field with
  | Some (PNum (S754_zero s)) => negb s
  | Some (PNum (S754_finite _ _ _)) => true
  | Some (PNum _) => false
  | Some (PBool _) => true
  | None => true
  end.

Definition categoryJson (fields : option (list FieldSpec)) : bool :=
  match fields with
  | Some l => forallb jsonDefault l
  | None => true
  end.

Definition jsonDefaults (config : ProjectTypeConfig) : bool :=
  match pt_categories config with
  | Some c =>
      categoryJson (cat_investment c) && categoryJson (cat_revenue c)
      && categoryJson (cat_operating c) && categoryJson (cat_staffing c)
  | None => true
  end.

(** The line [importConfiguration] writes for an entry that fails
    validation, nothing for one that passes. *)
Definition skipLine (entry : string * ProjectTypeConfig) : list string :=
  match Registry.validateProjectTypeConfig (snd entry) with
  | inl e => ["Skipping invalid project type " ++ fst entry ++ ": " ++ exnMessage e]
  | inr _ => []
  end.

(** The values of the currency fields as [getValue] reads them, added up
    in order with no multiplier applied. *)
Definition plainSum (data : ValueBag) (fields : list FieldSpec) : float64 :=
  fold_left
    (fun (total : float64) (field : FieldSpec) =>
       if Spec.isCurrency field
       then total + Engine.getValue data (f_id field) (Spec.declaredDefault field)
       else total)
    fields 0.

(** The built-in templates that have a revenue formula of their own. *)
Definition bespokeBuiltins : list string :=
  ["padel"; "gym"; "conference"; "saas"; "ecommerce"; "consulting"].

(** A lower-case letter, a digit or an underscore. *)
Definition slugSafe (c : ascii) : bool :=
  let n := nat_of_ascii c in
  ((97 <=? n) && (n <=? 122) || (48 <=? n) && (n <=? 57) || (n =? 95))%nat.

Fixpoint allChars (p : ascii -> bool) (s : string) : bool :=
  match s with
  | EmptyString => true
  | String c r => p c && allChars p r
  end.

(** The sum a ramp-up over all twelve months, or over none, comes to. *)
Definition twelveTimes (x : float64) : float64 :=
  fold_left (fun (sum : float64) (_ : float64) => sum + x) Engine.months 0.

End Notion.

(** Further inputs the properties are run on. *)
Module Scenario.

(** An engine that has calculated the generic template with a primary
    revenue of 1000 and nothing else. *)
Definition revenueOnly : ValueBag := {[ "primaryRevenue" := JNum 1000 ]}.

Definition genericRegistered : PLCalculationEngine :=
  snd (Engine.registerProjectType Sample.fresh "generic" revenueOnly Engine.new).

(** A manager holding the well-formed custom template of [Sample]. *)
Definition withStudio : ProjectTypeManager :=
  snd (Registry.setProjectType "studio" Sample.studio Sample.fresh).

(** A conference bag with no events in the year. *)
Definition noEvents : ValueBag := {[ "eventsPerYear" := JNum 0 ]}.

Definition perEventCosts : list FieldSpec :=
  [field "eventCatering" "Catering per event" "currency" 2000 "Variable Costs";
   field "venueRental" "Venue Rental" "currency" 24000 "Fixed Costs"].

(** A CapEx bag: 100 hours of project management at 50, 200 technical
    hours at 40, 1000 of ongoing staff. *)
Definition capexBag : ValueBag :=
  {[ "projectManager" := JNum 100; "pmRate" := JNum 50;
     "technicalStaff" := JNum 200; "techRate" := JNum 40;
     "ongoingStaff" := JNum 1000 ]}.

(** A form that holds the defaults of the gym template. *)
Definition gymForm : DynamicUIGenerator :=
  {| formData := {[ "gym" := Sample.gymDefaults ]} |}.

End Scenario.

(* ===================================================================== *)
(** ** Properties of the registry *)
(* ===================================================================== *)

(** C6 - [setProjectType] under the id of a built-in template throws the
    reserved-id error, whatever the schema, and leaves the manager's state
    (custom templates, storage, console) as it was; the built-in stays the
    schema served under that id when no custom template shadowed it. *)
Theorem setProjectType_builtin_rejected :
  forall (id : string) (config : ProjectTypeConfig) (m : ProjectTypeManager),
    is_Some (DEFAULT_PROJECT_TYPES !! id) ->
    Registry.setProjectType id config m
    = (inl (Error ("Cannot override default project type: " ++ id)), m).
Proof.
  intros id config m [builtin Hb].
  unfold Registry.setProjectType. rewrite Hb. reflexivity.
Qed.

Lemma setProjectType_builtin_rejected_gym :
  is_Some (DEFAULT_PROJECT_TYPES !! "gym")
  /\ Registry.setProjectType "gym" generic_template (Registry.new None)
     = (inl (Error "Cannot override default project type: gym"), Registry.new None).
Proof.
  split.
  - exists gym_template. vm_compute. reflexivity.
  - apply (setProjectType_builtin_rejected "gym" generic_template (Registry.new None)).
    exists gym_template. vm_compute. reflexivity.
Defined.

(** The built-in templates are served as declared as long as nothing
    shadows them. *)
Lemma getProjectType_builtin (m : ProjectTypeManager) (id : string) :
  builtinsUnshadowed m ->
  is_Some (DEFAULT_PROJECT_TYPES !! id) ->
  Registry.getAllProjectTypes m !! id = DEFAULT_PROJECT_TYPES !! id.
Proof.
  intros Hm Hid. unfold Registry.getAllProjectTypes.
  apply lookup_union_r. apply Hm, Hid.
Qed.

Lemma setProjectType_unshadowed (id : string) (config : ProjectTypeConfig)
  (m : ProjectTypeManager) :
  builtinsUnshadowed m ->
  builtinsUnshadowed (snd (Registry.setProjectType id config m)).
Proof.
  intros Hm. unfold Registry.setProjectType.
  destruct (DEFAULT_PROJECT_TYPES !! id) as [b|] eqn:Hid; [exact Hm|].
  unfold Registry.bind, Registry.lift.
  destruct (Registry.validateProjectTypeConfig config); [exact Hm|].
  cbn. intros id' Hid'. cbn.
  rewrite lookup_insert_ne; [apply Hm, Hid'|].
  intros ->. rewrite Hid in Hid'. destruct Hid' as [? ?]. discriminate.
Qed.

Lemma deleteProjectType_unshadowed (id : string) (m : ProjectTypeManager) :
  builtinsUnshadowed m ->
  builtinsUnshadowed (snd (Registry.deleteProjectType id m)).
Proof.
  intros Hm. unfold Registry.deleteProjectType.
  destruct (DEFAULT_PROJECT_TYPES !! id) as [b|] eqn:Hid; [exact Hm|].
  cbn. intros id' Hid'. cbn.
  rewrite lookup_delete_ne; [apply Hm, Hid'|].
  intros ->. rewrite Hid in Hid'. destruct Hid' as [? ?]. discriminate.
Qed.

Lemma createFromTemplate_unshadowed (templateId newId newName : string)
  (m : ProjectTypeManager) :
  builtinsUnshadowed m ->
  builtinsUnshadowed (snd (Registry.createFromTemplate templateId newId newName m)).
Proof.
  intros Hm. unfold Registry.createFromTemplate.
  destruct (Registry.getProjectType m templateId) as [template|]; [|exact Hm].
  unfold Registry.bind at 1.
  match goal with
  | |- context [Registry.setProjectType ?i ?c m] =>
      pose proof (setProjectType_unshadowed i c m Hm) as Hs;
      destruct (Registry.setProjectType i c m) as [[e|u] m']
  end; exact Hs.
Qed.

(** The paths that guard the built-in ids: without [importConfiguration],
    no sequence of calls puts a custom template under a built-in id. *)
Lemma calls_without_import_unshadowed (cs : list RegistryCall) (m : ProjectTypeManager) :
  forallb (fun c => negb (isImport c)) cs = true ->
  builtinsUnshadowed m ->
  builtinsUnshadowed (calls m cs).
Proof.
  revert m. induction cs as [|c cs IH]; intros m Hcs Hm; [exact Hm|].
  cbn in Hcs. apply andb_prop in Hcs as [Hc Hcs].
  cbn. apply IH; [exact Hcs|].
  destruct c; cbn in Hc |- *; try discriminate.
  - apply setProjectType_unshadowed, Hm.
  - apply deleteProjectType_unshadowed, Hm.
  - apply createFromTemplate_unshadowed, Hm.
Qed.

Lemma fresh_unshadowed : builtinsUnshadowed Sample.fresh.
Proof.
  intros id _. apply lookup_empty.
Qed.

Lemma calls_without_import_serve_builtins (cs : list RegistryCall) (id : string) :
  forallb (fun c => negb (isImport c)) cs = true ->
  is_Some (DEFAULT_PROJECT_TYPES !! id) ->
  Registry.getProjectType (calls Sample.fresh cs) id = DEFAULT_PROJECT_TYPES !! id.
Proof.
  intros Hcs Hid. apply getProjectType_builtin; [|exact Hid].
  apply calls_without_import_unshadowed; [exact Hcs|exact fresh_unshadowed].
Qed.

(** What [importConfiguration] does with a [custom] object: it returns
    normally and installs the object as it is. *)
Lemma validateEntries_returns (entries : list (string * ProjectTypeConfig))
  (m : ProjectTypeManager) :
  fst (Registry.validateEntries entries m) = inr tt
  /\ customTypes (snd (Registry.validateEntries entries m)) = customTypes m
  /\ localStorage (snd (Registry.validateEntries entries m)) = localStorage m.
Proof.
  revert m. induction entries as [|[id config] rest IH]; intros m; [easy|].
  cbn [Registry.validateEntries]. unfold Registry.bind at 1.
  destruct (Registry.validateProjectTypeConfig config) as [e|[]];
    cbn;
    match goal with
    | |- context [Registry.validateEntries rest ?m'] => exact (IH m')
    end.
Qed.

Lemma importConfiguration_installs (c : gmap string ProjectTypeConfig)
  (m : ProjectTypeManager) :
  fst (Registry.importConfiguration {| custom := Some c |} m) = inr tt
  /\ customTypes (snd (Registry.importConfiguration {| custom := Some c |} m)) = c.
Proof.
  unfold Registry.importConfiguration. cbn [custom]. unfold Registry.bind.
  destruct (validateEntries_returns (map_to_list c) m) as (H1 & _ & _).
  destruct (Registry.validateEntries (map_to_list c) m) as [[e|[]] m'];
    cbn in H1; [discriminate|]. cbn. easy.
Qed.

(** Every entry that fails validation is reported on the console. *)
Lemma validateEntries_console (entries : list (string * ProjectTypeConfig))
  (m : ProjectTypeManager) :
  exists lines,
    console (snd (Registry.validateEntries entries m)) = (console m ++ lines)%list
    /\ forall id config e,
         In (id, config) entries ->
         Registry.validateProjectTypeConfig config = inl e ->
         In ("Skipping invalid project type " ++ id ++ ": " ++ exnMessage e) lines.
Proof.
  revert m. induction entries as [|[id config] rest IH]; intros m.
  - exists []. split; [symmetry; apply app_nil_r|]. intros id config e [].
  - cbn [Registry.validateEntries]. unfold Registry.bind at 1.
    destruct (Registry.validateProjectTypeConfig config) as [e|[]] eqn:Hv; cbn.
    + match goal with
      | |- context [Registry.validateEntries rest ?m'] =>
          destruct (IH m') as (lines & Hl & Hin)
      end.
      cbn [console] in Hl. rewrite <- app_assoc in Hl.
      eexists. split; [exact Hl|].
      intros id' config' e' [Heq | Hrest] Hv'.
      * injection Heq as <- <-. rewrite Hv in Hv'. injection Hv' as <-.
        left. reflexivity.
      * right. exact (Hin id' config' e' Hrest Hv').
    + destruct (IH m) as (lines & Hl & Hin).
      exists lines. split; [exact Hl|].
      intros id' config' e' [Heq | Hrest] Hv'.
      * injection Heq as <- <-. rewrite Hv in Hv'. discriminate.
      * exact (Hin id' config' e' Hrest Hv').
Qed.

Lemma importConfiguration_logs (c : gmap string ProjectTypeConfig)
  (m : ProjectTypeManager) (id : string) (config : ProjectTypeConfig) (e : exn) :
  c !! id = Some config ->
  Registry.validateProjectTypeConfig config = inl e ->
  In ("Skipping invalid project type " ++ id ++ ": " ++ exnMessage e)
     (console (snd (Registry.importConfiguration {| custom := Some c |} m))).
Proof.
  intros Hc Hv. unfold Registry.importConfiguration. cbn [custom].
  unfold Registry.bind.
  destruct (validateEntries_console (map_to_list c) m) as (lines & Hl & Hin).
  destruct (validateEntries_returns (map_to_list c) m) as (H1 & _ & _).
  destruct (Registry.validateEntries (map_to_list c) m) as [[e'|[]] m'];
    cbn in H1; [discriminate|].
  cbn in Hl |- *. rewrite Hl. apply in_or_app. right.
  apply (Hin id config e); [|exact Hv].
  apply list_elem_of_In, elem_of_map_to_list, Hc.
Qed.

(** C4 - [importConfiguration] on an object with one invalid and one
    valid entry: the call returns, the invalid entry is reported on the
    console and the valid one is installed, but the invalid entry is
    installed too: the loop only logs, and the assignment that follows
    takes the whole [custom] object.  The registry then serves the invalid
    schema, and calculating on it throws. *)
Theorem importConfiguration_keeps_invalid_entry :
  let m := snd (Registry.importConfiguration Sample.mixedImport Sample.fresh) in
  Registry.validateProjectTypeConfig Sample.broken
  = inl (Error "Project type must have a valid name")
  /\ Registry.validateProjectTypeConfig Sample.studio = inr tt
  /\ fst (Registry.importConfiguration Sample.mixedImport Sample.fresh) = inr tt
  /\ console m
     = ["Skipping invalid project type broken: Project type must have a valid name"]
  /\ customTypes m !! "studio" = Some Sample.studio
  /\ customTypes m !! "broken" = Some Sample.broken
  /\ Registry.getProjectType m "broken" = Some Sample.broken
  /\ Engine.calculateProjectPL m "broken" ∅ = inl TypeError.
Proof.
  vm_compute. repeat split; reflexivity.
Qed.

(** C5 - one [importConfiguration] whose [custom] object has a well-formed
    entry under the key [gym] puts a custom template on a built-in id: the
    registry no longer serves the built-in gym schema. *)
Theorem importConfiguration_shadows_builtin :
  let m := calls Sample.fresh [ImportConfiguration Sample.gymImport] in
  Registry.validateProjectTypeConfig Sample.rogueGym = inr tt
  /\ DEFAULT_PROJECT_TYPES !! "gym" = Some gym_template
  /\ Registry.getAllProjectTypes m !! "gym" = Some Sample.rogueGym
  /\ Registry.getProjectType m "gym" <> Some gym_template.
Proof.
  vm_compute. repeat split; try reflexivity. discriminate.
Qed.

(* ===================================================================== *)
(** ** Properties of numbers and of [getValue] *)
(* ===================================================================== *)

Lemma gtb_zero_leb (x : float64) :
  Float64.gtb x 0%js = true -> Float64.leb x 0%js = false.
Proof.
  unfold Float64.gtb, Float64.leb, SFltb, SFleb.
  destruct x as [s|s| |s m e]; cbn; try discriminate; destruct s; cbn; congruence.
Qed.


Lemma truthy_false (x : float64) :
  Float64.truthy x = false <-> Spec.zeroOrNaN x.
Proof.
  unfold Spec.zeroOrNaN, Float64.NaN. split.
  - destruct x as [s|s| |s m e]; cbn; try discriminate; eauto.
  - intros [-> | [s ->]]; reflexivity.
Qed.



(** With a numeric fallback the result is a number. *)
Lemma getValue_number (data : ValueBag) (key : string) (d : float64) :
  exists x, Engine.getValue data key (PNum d) = PNum x.
Proof.
  unfold Engine.getValue.
  destruct (data !! key) as [[x|b|s| |]|]; eauto;
    match goal with
    | |- context [Float64.truthy ?p] => destruct (Float64.truthy p); eauto
    end.
Qed.

(** What [parseFloat] makes of some strings. *)
Example parseFloat_samples :
  map Js.parseFloat
    [JStr "12.5px"; JStr "  -.5e1"; JStr "1e3"; JStr "0"; JStr "-0"; JStr "abc";
     JStr EmptyString; JStr "1e999"; JStr "-Infinity"; JBool true; JNull]
  = [S754_finite false 7036874417766400 (-49); (-5)%js; 1000%js; 0%js;
     S754_zero true; Float64.NaN; Float64.NaN; Float64.Infinity;
     S754_infinity true; Float64.NaN; Float64.NaN].
Proof.
  vm_compute. reflexivity.
Qed.

(** A boolean in the bag never parses: a ticked check box ([true]) reads
    as the fallback. *)
Example getValue_boolean :
  Engine.getValue {[ "rampUp" := JBool true ]} "rampUp" (PBool false) = PBool false.
Proof.
  vm_compute. reflexivity.
Qed.

(** C9 - a key that is present with a value that is not a number:
    [getValue] returns [parseFloat(value)] exactly when the parse is
    neither a zero nor NaN, which includes the infinities, and the
    fallback otherwise.  The string "0" is therefore replaced by the
    fallback, and the string "Infinity" comes back as [Infinity]. *)
Theorem getValue_non_number :
  forall (data : ValueBag) (key : string) (value : jsval) (d : prim),
    data !! key = Some value ->
    (forall x, value <> JNum x) ->
    (~ Spec.zeroOrNaN (Js.parseFloat value) ->
       Engine.getValue data key d = PNum (Js.parseFloat value))
    /\ (Spec.zeroOrNaN (Js.parseFloat value) -> Engine.getValue data key d = d)
    /\ Engine.getValue {[ "k" := JStr "0" ]} "k" d = d
    /\ Engine.getValue {[ "k" := JStr "Infinity" ]} "k" d = PNum Float64.Infinity.
Proof.
  intros data key value d Hkey Hnum.
  assert (Hget : Engine.getValue data key d
                 = if Float64.truthy (Js.parseFloat value)
                   then PNum (Js.parseFloat value) else d).
  { unfold Engine.getValue. rewrite Hkey.
    destruct value as [x|b|s| |]; try reflexivity. destruct (Hnum x). reflexivity. }
  split; [|split; [|split]].
  - intros Hp. rewrite Hget.
    destruct (Float64.truthy (Js.parseFloat value)) eqn:Ht; [reflexivity|].
    destruct Hp. apply truthy_false, Ht.
  - intros Hp. rewrite Hget. apply truthy_false in Hp. rewrite Hp. reflexivity.
  - vm_compute. reflexivity.
  - vm_compute. reflexivity.
Qed.

Lemma getValue_non_number_witness :
  Engine.getValue {[ "days" := JStr "7 days" ]} "days" (PNum 3%js) = PNum 7%js
  /\ Engine.getValue {[ "days" := JStr "0" ]} "days" (PNum 3%js) = PNum 3%js.
Proof.
  assert (H7 : ({[ "days" := JStr "7 days" ]} : ValueBag) !! "days"
               = Some (JStr "7 days")) by (vm_compute; reflexivity).
  assert (H0 : ({[ "days" := JStr "0" ]} : ValueBag) !! "days"
               = Some (JStr "0")) by (vm_compute; reflexivity).
  split.
  - destruct (getValue_non_number _ "days" (JStr "7 days") (PNum 3%js) H7)
      as (H & _); [intros x; discriminate|].
    rewrite H; [vm_compute; reflexivity|].
    vm_compute. intros [Hn | [s Hz]]; discriminate.
  - destruct (getValue_non_number _ "days" (JStr "0") (PNum 3%js) H0)
      as (_ & H & _); [intros x; discriminate|].
    apply H. right. exists false. vm_compute. reflexivity.
Defined.

(** The claim of C9 says the parse is returned only when it is finite;
    on the string "Infinity" the parse is returned and is not finite. *)
Lemma getValue_returns_infinite_parse :
  Engine.getValue {[ "k" := JStr "Infinity" ]} "k" (PNum 5%js)
  = PNum (Js.parseFloat (JStr "Infinity"))
  /\ Float64.isFinite (Js.parseFloat (JStr "Infinity")) = false.
Proof.
  vm_compute. split; reflexivity.
Qed.

(* ===================================================================== *)
(** ** Properties of the engine *)
(* ===================================================================== *)

Local Open Scope js_scope.

(** C2 - [calculateROI]: with an investment [<= 0] the percentage is 0 and
    both payback figures are [Infinity], whatever the profit; with an
    investment [> 0] the percentage is [profit / investment * 100] and the
    payback figures are the ceilings of [investment / profit] and of
    [investment / (profit / 12)] when the profit is [> 0], [Infinity]
    otherwise. *)
Theorem calculateROI_spec :
  forall investment profit : float64,
    let roi := Engine.calculateROI investment profit in
    ((investment <=? 0) = true ->
       roi_roiPercentage roi = 0
       /\ roi_paybackYears roi = Float64.Infinity
       /\ roi_breakEvenMonth roi = Float64.Infinity)
    /\ ((investment >? 0) = true ->
       roi_roiPercentage roi = profit / investment * 100
       /\ roi_paybackYears roi
          = (if profit >? 0 then Float64.ceil (investment / profit)
             else Float64.Infinity)
       /\ roi_breakEvenMonth roi
          = (if profit >? 0 then Float64.ceil (investment / (profit / 12))
             else Float64.Infinity)).
Proof.
  intros investment profit roi. subst roi. unfold Engine.calculateROI.
  split; intros H.
  - rewrite H. repeat split.
  - unfold Js.gtb in H. cbn [Js.ToNumber] in H.
    unfold Js.leb. cbn [Js.ToNumber]. rewrite (gtb_zero_leb _ H).
    repeat split.
Qed.

Lemma calculateROI_spec_witness :
  roi_paybackYears (Engine.calculateROI 49000 42000) = 2
  /\ roi_breakEvenMonth (Engine.calculateROI 49000 42000) = 14
  /\ roi_paybackYears (Engine.calculateROI 0 42000) = Float64.Infinity
  /\ roi_roiPercentage (Engine.calculateROI (-5) 42000) = 0.
Proof.
  destruct (calculateROI_spec 49000 42000) as [_ Hpos].
  destruct (Hpos eq_refl) as (_ & Hy & Hm).
  destruct (calculateROI_spec 0 42000) as [Hzero _].
  destruct (Hzero eq_refl) as (_ & Hy0 & _).
  destruct (calculateROI_spec (-5) 42000) as [Hneg _].
  destruct (Hneg eq_refl) as (Hp & _ & _).
  rewrite Hy, Hm, Hy0, Hp. vm_compute. repeat split; reflexivity.
Defined.

(** C7 - the CapEx first-year benefit, in terms of the four values the
    formula reads: exactly 0 when [implementationTime + rampUpPeriod >= 12];
    otherwise [(costSavings + revenueIncrease)
    * ((12 - (implementationTime + rampUpPeriod)) / 12) * rampFactor] with
    [rampFactor] 0.5 when [rampUpPeriod > 0] and 1 otherwise; at a sum of 11
    that is [(costSavings + revenueIncrease) * (1 / 12) * rampFactor]. *)
Theorem calculateCapExRevenue_phases :
  forall (config : option (list FieldSpec)) (data : ValueBag),
    let costSavings := Engine.getValue data "costSavings" 0 in
    let revenueIncrease := Engine.getValue data "revenueIncrease" 0 in
    let implementationTime := Engine.getValue data "implementationTime" 6 in
    let rampUpPeriod := Engine.getValue data "rampUpPeriod" 3 in
    let total : float64 := implementationTime + rampUpPeriod in
    let rampFactor : float64 := if rampUpPeriod >? 0 then Engine.half else 1 in
    ((total >=? 12) = true -> Engine.calculateCapExRevenue config data = 0)
    /\ ((total >=? 12) = false ->
        Engine.calculateCapExRevenue config data
        = (costSavings + revenueIncrease) * ((12 - total) / 12) * rampFactor)
    /\ (total = 11 ->
        Engine.calculateCapExRevenue config data
        = (costSavings + revenueIncrease) * (1 / 12) * rampFactor).
Proof.
  intros config data costSavings revenueIncrease implementationTime rampUpPeriod
    total rampFactor.
  unfold Engine.calculateCapExRevenue.
  fold costSavings revenueIncrease implementationTime rampUpPeriod.
  fold total. fold rampFactor.
  split; [|split]; intros H.
  - rewrite H. reflexivity.
  - rewrite H. reflexivity.
  - rewrite H. reflexivity.
Qed.

Lemma calculateCapExRevenue_phases_witness :
  Engine.calculateCapExRevenue None Sample.elevenMonths = 1500
  /\ Engine.calculateCapExRevenue None
       (<["implementationTime" := JNum 9]> Sample.elevenMonths) = 0.
Proof.
  destruct (calculateCapExRevenue_phases None Sample.elevenMonths)
    as (_ & _ & H11).
  destruct (calculateCapExRevenue_phases None
              (<["implementationTime" := JNum 9]> Sample.elevenMonths))
    as (H12 & _ & _).
  split.
  - rewrite H11; vm_compute; reflexivity.
  - apply H12. vm_compute. reflexivity.
Defined.

(** The gym template on its defaults with a ramp-up of 3 months at 40 %:
    3 * 2860 + 9 * 7150 = 72 930. *)
Example calculateGymRevenue_ramp_scenario :
  Engine.calculateGymRevenue None (<["rampUp" := JNum 1]> Sample.gymDefaults) = 72930.
Proof.
  vm_compute. reflexivity.
Qed.




(** At the defaults of the gym template the same sum is exact. *)
Example calculateGymRevenue_defaults_ramp_zero :
  Engine.calculateGymRevenue None
    (<["rampUp" := JNum 1]> (<["rampDuration" := JNum 0]> Sample.gymDefaults))
  = 85800.
Proof.
  vm_compute. reflexivity.
Qed.

(** Ids without a cached calculation leave the loop variables as they
    are. *)
Lemma combine_uncached (eng : PLCalculationEngine) (adjustments : Adjustments)
  (ids : list string) (acc : Engine.Combining) :
  (forall id, In id ids -> Engine.getCalculation eng id = None) ->
  fold_left (Engine.combineStep eng adjustments) ids acc = acc.
Proof.
  revert acc. induction ids as [|id ids IH]; intros acc H; [reflexivity|].
  cbn [fold_left]. unfold Engine.combineStep at 2.
  rewrite (H id (or_introl eq_refl)). apply IH.
  intros id' Hin. apply H. right. exact Hin.
Qed.

Lemma combine_filter (eng : PLCalculationEngine) (adjustments : Adjustments)
  (ids : list string) (acc : Engine.Combining) :
  fold_left (Engine.combineStep eng adjustments) ids acc
  = fold_left (Engine.combineStep eng adjustments)
      (filter (fun id => is_Some (Engine.getCalculation eng id)) ids) acc.
Proof.
  revert acc. induction ids as [|id ids IH]; intros acc; [reflexivity|].
  cbn [fold_left]. rewrite filter_cons.
  destruct (decide (is_Some (Engine.getCalculation eng id))) as [Hs|Hn].
  - cbn [fold_left]. apply IH.
  - rewrite <- IH. f_equal. unfold Engine.combineStep.
    destruct (Engine.getCalculation eng id); [|reflexivity].
    destruct Hn. eexists. reflexivity.
Qed.

(** C10 - [calculateCombinedPL] skips the ids that have no cached
    calculation: the result is the one for the list without them, and a
    list in which no id is cached gives no projects, zero revenue, costs,
    profit and investment, roi 0 and payback [Infinity]. *)
Theorem calculateCombinedPL_skips_uncached :
  forall (eng : PLCalculationEngine) (ids : list string) (adjustments : Adjustments),
    Engine.calculateCombinedPL eng ids adjustments
    = Engine.calculateCombinedPL eng
        (filter (fun id => is_Some (Engine.getCalculation eng id)) ids) adjustments
    /\ ((forall id, In id ids -> Engine.getCalculation eng id = None) ->
        Engine.calculateCombinedPL eng ids adjustments = Spec.emptyCombination).
Proof.
  intros eng ids adjustments. split.
  - unfold Engine.calculateCombinedPL. rewrite <- combine_filter. reflexivity.
  - intros H. unfold Engine.calculateCombinedPL.
    rewrite (combine_uncached _ _ _ _ H). reflexivity.
Qed.

Lemma calculateCombinedPL_skips_uncached_witness :
  Engine.calculateCombinedPL Sample.gymRegistered ["padel"; "nowhere"]
    Engine.noAdjustments
  = Spec.emptyCombination
  /\ tot_revenue (totals (Engine.calculateCombinedPL Sample.gymRegistered
                            ["padel"; "gym"; "nowhere"] Engine.noAdjustments))
     = 85800.
Proof.
  destruct (calculateCombinedPL_skips_uncached Sample.gymRegistered
              ["padel"; "nowhere"] Engine.noAdjustments) as [_ Hnone].
  destruct (calculateCombinedPL_skips_uncached Sample.gymRegistered
              ["padel"; "gym"; "nowhere"] Engine.noAdjustments) as [Hskip _].
  split.
  - apply Hnone. intros id [<- | [<- | []]]; vm_compute; reflexivity.
  - rewrite Hskip. vm_compute. reflexivity.
Defined.

(** A configuration that passes validation has its four categories. *)
Lemma validate_categories (config : ProjectTypeConfig) :
  Registry.validateProjectTypeConfig config = inr tt ->
  exists inv rev op st,
    pt_categories config
    = Some {| cat_investment := Some inv; cat_revenue := Some rev;
              cat_operating := Some op; cat_staffing := Some st |}.
Proof.
  unfold Registry.validateProjectTypeConfig.
  destruct (Registry.missing (pt_id config)); [discriminate|].
  destruct (Registry.missing (pt_name config)); [discriminate|].
  destruct (pt_categories config) as [[inv rev op st]|]; [|discriminate].
  cbn. destruct inv, rev, op, st; try discriminate. eauto 10.
Qed.

(** On such a configuration no step of the calculation throws. *)
Lemma calculateRevenue_returns (projectType : ProjectTypeConfig) (data : ValueBag) :
  Registry.validateProjectTypeConfig projectType = inr tt ->
  exists annual,
    Engine.calculateRevenue projectType data
    = inr {| rev_annual := annual; rev_monthly := annual / 12;
             rev_daily := annual / 365 |}.
Proof.
  intros Hv. destruct (validate_categories _ Hv) as (inv & rev & op & st & Hc).
  unfold Engine.calculateRevenue, Engine.category. rewrite Hc.
  cbn [Engine.bindE cat_revenue].
  repeat match goal with
         | |- context [if Engine.idIs projectType ?id then _ else _] =>
             destruct (Engine.idIs projectType id); [cbn [Engine.bindE]; eauto|]
         end.
  unfold Engine.calculateGenericRevenue. cbn [Engine.bindE Engine.iterate]. eauto.
Qed.

Lemma calculateCosts_returns (projectType : ProjectTypeConfig) (data : ValueBag) :
  Registry.validateProjectTypeConfig projectType = inr tt ->
  exists costs, Engine.calculateCosts projectType data = inr costs.
Proof.
  intros Hv. destruct (validate_categories _ Hv) as (inv & rev & op & st & Hc).
  unfold Engine.calculateCosts, Engine.category. rewrite Hc.
  unfold Engine.calculateOperatingCosts, Engine.calculateStaffingCosts.
  cbn [Engine.bindE Engine.iterate cat_operating cat_staffing]. eauto.
Qed.

Lemma calculateInvestment_returns (projectType : ProjectTypeConfig) (data : ValueBag) :
  Registry.validateProjectTypeConfig projectType = inr tt ->
  exists investment, Engine.calculateInvestment projectType data = inr investment.
Proof.
  intros Hv. destruct (validate_categories _ Hv) as (inv & rev & op & st & Hc).
  unfold Engine.calculateInvestment, Engine.category. rewrite Hc.
  cbn [Engine.bindE Engine.iterate cat_investment]. eauto.
Qed.

(** The shape of every result [calculateProjectPL] returns. *)
Lemma calculateProjectPL_inr (mgr : ProjectTypeManager) (typeId : string)
  (data : ValueBag) (r : CalculationResult) :
  Engine.calculateProjectPL mgr typeId data = inr r ->
  exists projectType revenue costs investment,
    Registry.getProjectType mgr typeId = Some projectType
    /\ Engine.calculateRevenue projectType data = inr revenue
    /\ Engine.calculateCosts projectType data = inr costs
    /\ Engine.calculateInvestment projectType data = inr investment
    /\ r = {| r_typeId := typeId;
              r_typeName := pt_name projectType;
              r_formData := data;
              r_revenue := revenue;
              r_costs := costs;
              r_investment := investment;
              r_profit := rev_annual revenue - cost_annual costs;
              r_monthlyProfit := (rev_annual revenue - cost_annual costs) / 12;
              r_roi := Engine.calculateROI investment
                         (rev_annual revenue - cost_annual costs) |}.
Proof.
  unfold Engine.calculateProjectPL.
  destruct (Registry.getProjectType mgr typeId) as [projectType|] eqn:Hget;
    [|discriminate].
  destruct (Engine.calculateRevenue projectType data) as [e|revenue] eqn:Hrev;
    [discriminate|].
  destruct (Engine.calculateCosts projectType data) as [e|costs] eqn:Hcost;
    [discriminate|].
  destruct (Engine.calculateInvestment projectType data) as [e|investment] eqn:Hinv;
    [discriminate|].
  cbn [Engine.bindE]. intros H. injection H as <-.
  exists projectType, revenue, costs, investment. repeat split; assumption.
Qed.

Lemma calculateProjectPL_returns (mgr : ProjectTypeManager) (typeId : string)
  (data : ValueBag) (projectType : ProjectTypeConfig) :
  Registry.getProjectType mgr typeId = Some projectType ->
  Registry.validateProjectTypeConfig projectType = inr tt ->
  exists r, Engine.calculateProjectPL mgr typeId data = inr r.
Proof.
  intros Hget Hv. unfold Engine.calculateProjectPL. rewrite Hget.
  destruct (calculateRevenue_returns projectType data Hv) as [annual ->].
  destruct (calculateCosts_returns projectType data Hv) as [costs ->].
  destruct (calculateInvestment_returns projectType data Hv) as [investment ->].
  cbn [Engine.bindE]. eauto.
Qed.

(** C1 - every result of [calculateProjectPL] has
    [profit = revenue.annual - costs.annual] and
    [monthlyProfit = profit / 12], as the same binary64 values; and the
    calculation does return a result for every well-formed schema the
    registry serves, whatever the bag. *)
Theorem calculateProjectPL_profit_identity :
  forall (mgr : ProjectTypeManager) (typeId : string) (data : ValueBag),
    (forall r, Engine.calculateProjectPL mgr typeId data = inr r ->
       r_profit r = rev_annual (r_revenue r) - cost_annual (r_costs r)
       /\ r_monthlyProfit r = r_profit r / 12)
    /\ (forall projectType,
          Registry.getProjectType mgr typeId = Some projectType ->
          Registry.validateProjectTypeConfig projectType = inr tt ->
          exists r, Engine.calculateProjectPL mgr typeId data = inr r).
Proof.
  intros mgr typeId data. split.
  - intros r Hr.
    destruct (calculateProjectPL_inr _ _ _ _ Hr)
      as (projectType & revenue & costs & investment & _ & _ & _ & _ & ->).
    split; reflexivity.
  - intros projectType. apply calculateProjectPL_returns.
Qed.

Lemma calculateProjectPL_profit_identity_witness :
  exists r,
    Engine.calculateProjectPL Sample.fresh "gym" Sample.gymDefaults = inr r
    /\ r_profit r = rev_annual (r_revenue r) - cost_annual (r_costs r)
    /\ r_monthlyProfit r = r_profit r / 12
    /\ r_profit r = 42000.
Proof.
  destruct (calculateProjectPL_profit_identity Sample.fresh "gym" Sample.gymDefaults)
    as [Hid Hret].
  destruct (Hret gym_template) as [r Hr].
  - vm_compute. reflexivity.
  - vm_compute. reflexivity.
  - exists r. destruct (Hid r Hr) as [Hp Hm].
    repeat split; [exact Hr | exact Hp | exact Hm |].
    assert (H : Some (r_profit r) = Some 42000).
    { change (Some (r_profit r))
        with (match @inr exn CalculationResult r with
              | inr x => Some (r_profit x)
              | inl _ => None
              end).
      rewrite <- Hr. vm_compute. reflexivity. }
    injection H as ->. reflexivity.
Defined.









(* ===================================================================== *)
(** ** Further properties of the registry *)
(* ===================================================================== *)

(** X1 - [validateProjectTypeConfig] accepts exactly the configurations
    that have a non-empty id, a non-empty name and the four category
    arrays; what the arrays hold is not looked at. *)
Theorem validateProjectTypeConfig_accepts :
  forall config : ProjectTypeConfig,
    Registry.validateProjectTypeConfig config = inr tt <-> Notion.wellFormed config.
Proof.
  intros config. unfold Notion.wellFormed, Registry.validateProjectTypeConfig,
    Registry.missing.
  split.
  - destruct (pt_id config) as [id|]; [|discriminate].
    destruct (String.eqb id EmptyString) eqn:Hid; [discriminate|].
    destruct (pt_name config) as [name|]; [|discriminate].
    destruct (String.eqb name EmptyString) eqn:Hname; [discriminate|].
    destruct (pt_categories config) as [[inv rev op st]|]; [|discriminate].
    cbn. destruct inv, rev, op, st; try discriminate.
    intros _. apply String.eqb_neq in Hid, Hname. eauto 12.
  - intros (id & name & inv & rev & op & st & -> & Hid & -> & Hname & ->).
    apply String.eqb_neq in Hid, Hname. rewrite Hid, Hname. reflexivity.
Qed.

(** X2 - a [setProjectType] that returns has installed the configuration:
    the registry serves it under that id, whatever was there before, every
    other id is served as before, and the custom templates have been
    saved.  It returns whenever the id is no built-in id (and no name
    inherited from [Object.prototype]) and the configuration is valid. *)
Theorem setProjectType_installs :
  forall (id : string) (config : ProjectTypeConfig) (m : ProjectTypeManager),
    Notion.ordinaryId id ->
    DEFAULT_PROJECT_TYPES !! id = None ->
    Registry.validateProjectTypeConfig config = inr tt ->
    let m' := snd (Registry.setProjectType id config m) in
    fst (Registry.setProjectType id config m) = inr tt
    /\ Registry.getProjectType m' id = Some config
    /\ (forall other, other <> id ->
          Registry.getProjectType m' other = Registry.getProjectType m other)
    /\ localStorage m' = Some (customTypes m')
    /\ console m' = console m.
Proof.
  intros id config m _ Hid Hv. unfold Registry.setProjectType.
  rewrite Hid. unfold Registry.bind, Registry.lift. rewrite Hv. cbn.
  unfold Registry.getProjectType, Registry.getAllProjectTypes. cbn.
  repeat split.
  - apply lookup_union_Some_l, lookup_insert_eq.
  - intros other Hother. rewrite !lookup_union, lookup_insert_ne by congruence.
    reflexivity.
Qed.

Lemma setProjectType_installs_witness :
  Registry.getProjectType Scenario.withStudio "studio" = Some Sample.studio
  /\ Registry.getProjectType Scenario.withStudio "gym" = Some gym_template.
Proof.
  assert (Ho : Notion.ordinaryId "studio").
  { unfold Notion.ordinaryId, Notion.prototypeNames. cbn.
    intros H. repeat (destruct H as [H|H]; [discriminate|]). exact H. }
  destruct (setProjectType_installs "studio" Sample.studio Sample.fresh Ho)
    as (_ & Hget & Hother & _).
  - vm_compute. reflexivity.
  - vm_compute. reflexivity.
  - split; [exact Hget|].
    unfold Scenario.withStudio. rewrite Hother by discriminate.
    vm_compute. reflexivity.
Defined.

(** X3 - [setProjectType] writes nothing when it throws: whatever the
    error, the state is the one before the call.  For an id that is not
    built in, an invalid configuration is turned down with the error of
    the validation. *)
Theorem setProjectType_throws_unchanged :
  forall (id : string) (config : ProjectTypeConfig) (m : ProjectTypeManager),
    (forall e, fst (Registry.setProjectType id config m) = inl e ->
       snd (Registry.setProjectType id config m) = m)
    /\ (forall e, DEFAULT_PROJECT_TYPES !! id = None ->
          Registry.validateProjectTypeConfig config = inl e ->
          Registry.setProjectType id config m = (inl e, m)).
Proof.
  intros id config m. unfold Registry.setProjectType. split.
  - intros e. destruct (DEFAULT_PROJECT_TYPES !! id); [reflexivity|].
    unfold Registry.bind, Registry.lift.
    destruct (Registry.validateProjectTypeConfig config) as [e'|[]];
      [reflexivity|discriminate].
  - intros e -> Hv. unfold Registry.bind, Registry.lift. rewrite Hv. reflexivity.
Qed.

Lemma setProjectType_throws_unchanged_witness :
  Registry.setProjectType "broken" Sample.broken Scenario.withStudio
  = (inl (Error "Project type must have a valid name"), Scenario.withStudio).
Proof.
  destruct (setProjectType_throws_unchanged "broken" Sample.broken Scenario.withStudio)
    as [_ H].
  apply H; vm_compute; reflexivity.
Defined.

(** X4 - [deleteProjectType]: a built-in id is turned down with an error
    and nothing changes; any other id is removed without an error, whether
    or not a template was registered under it: afterwards the registry
    serves nothing under that id, serves every other id as before, and has
    saved the custom templates. *)
Theorem deleteProjectType_spec :
  forall (id : string) (m : ProjectTypeManager),
    (is_Some (DEFAULT_PROJECT_TYPES !! id) ->
       Registry.deleteProjectType id m
       = (inl (Error ("Cannot delete default project type: " ++ id)), m))
    /\ (Notion.ordinaryId id -> DEFAULT_PROJECT_TYPES !! id = None ->
        let m' := snd (Registry.deleteProjectType id m) in
        fst (Registry.deleteProjectType id m) = inr tt
        /\ Registry.getProjectType m' id = None
        /\ (forall other, other <> id ->
              Registry.getProjectType m' other = Registry.getProjectType m other)
        /\ localStorage m' = Some (customTypes m')).
Proof.
  intros id m. unfold Registry.deleteProjectType. split.
  - intros [b ->]. reflexivity.
  - intros _ Hid. rewrite Hid. cbn.
    unfold Registry.getProjectType, Registry.getAllProjectTypes. cbn.
    repeat split.
    + apply lookup_union_None. split; [apply lookup_delete_eq|exact Hid].
    + intros other Hother. rewrite !lookup_union, lookup_delete_ne by congruence.
      reflexivity.
Qed.

Lemma deleteProjectType_spec_witness :
  Registry.deleteProjectType "gym" Scenario.withStudio
  = (inl (Error "Cannot delete default project type: gym"), Scenario.withStudio)
  /\ Registry.getProjectType
       (snd (Registry.deleteProjectType "studio" Scenario.withStudio)) "studio" = None.
Proof.
  assert (Ho : Notion.ordinaryId "studio").
  { unfold Notion.ordinaryId, Notion.prototypeNames. cbn.
    intros H. repeat (destruct H as [H|H]; [discriminate|]). exact H. }
  split.
  - destruct (deleteProjectType_spec "gym" Scenario.withStudio) as [H _].
    apply H. exists gym_template. vm_compute. reflexivity.
  - destruct (deleteProjectType_spec "studio" Scenario.withStudio) as [_ H].
    destruct (H Ho) as (_ & Hnone & _); [vm_compute; reflexivity|].
    exact Hnone.
Defined.

(** X5 - registering a template under a free id and deleting it again
    gives back the custom templates there were. *)
Theorem setProjectType_deleteProjectType :
  forall (id : string) (config : ProjectTypeConfig) (m : ProjectTypeManager),
    Notion.ordinaryId id ->
    DEFAULT_PROJECT_TYPES !! id = None ->
    Registry.validateProjectTypeConfig config = inr tt ->
    customTypes m !! id = None ->
    customTypes
      (snd (Registry.deleteProjectType id (snd (Registry.setProjectType id config m))))
    = customTypes m.
Proof.
  intros id config m _ Hid Hv Hfree.
  unfold Registry.setProjectType, Registry.deleteProjectType. rewrite Hid.
  unfold Registry.bind, Registry.lift. rewrite Hv. cbn.
  rewrite delete_insert_eq. apply delete_id, Hfree.
Qed.

Lemma setProjectType_deleteProjectType_witness :
  customTypes
    (snd (Registry.deleteProjectType "studio"
            (snd (Registry.setProjectType "studio" Sample.studio Sample.fresh))))
  = customTypes Sample.fresh.
Proof.
  apply setProjectType_deleteProjectType.
  - unfold Notion.ordinaryId, Notion.prototypeNames. cbn.
    intros H. repeat (destruct H as [H|H]; [discriminate|]). exact H.
  - vm_compute. reflexivity.
  - vm_compute. reflexivity.
  - vm_compute. reflexivity.
Defined.

(** What a [setProjectType] that passes its two checks leaves behind. *)
Lemma setProjectType_returns (id : string) (config : ProjectTypeConfig)
  (m : ProjectTypeManager) :
  DEFAULT_PROJECT_TYPES !! id = None ->
  Registry.validateProjectTypeConfig config = inr tt ->
  Registry.setProjectType id config m
  = (inr tt, {| customTypes := <[id := config]> (customTypes m);
                localStorage := Some (<[id := config]> (customTypes m));
                console := console m |}).
Proof.
  intros Hid Hv. unfold Registry.setProjectType. rewrite Hid.
  unfold Registry.bind, Registry.lift. rewrite Hv. reflexivity.
Qed.

Lemma setProjectType_throws (id : string) (config : ProjectTypeConfig)
  (m : ProjectTypeManager) (e : exn) :
  fst (Registry.setProjectType id config m) = inl e ->
  snd (Registry.setProjectType id config m) = m.
Proof.
  unfold Registry.setProjectType.
  destruct (DEFAULT_PROJECT_TYPES !! id); [reflexivity|].
  unfold Registry.bind, Registry.lift.
  destruct (Registry.validateProjectTypeConfig config) as [e'|[]];
    [reflexivity|discriminate].
Qed.

(** The configuration [createFromTemplate] builds from a template. *)
Lemma createFromTemplate_inr (templateId newId newName : string)
  (m m' : ProjectTypeManager) (template newConfig : ProjectTypeConfig) :
  Registry.getProjectType m templateId = Some template ->
  Registry.createFromTemplate templateId newId newName m = (inr newConfig, m') ->
  newConfig
  = {| pt_id := Some newId;
       pt_name := Some newName;
       pt_description :=
         Some ("Custom " ++ newName ++ " based on "
               ++ Registry.interpolate (pt_name template));
       pt_businessType := pt_businessType template;
       pt_categories := option_map Registry.cloneCategories (pt_categories template) |}.
Proof.
  intros Hget. unfold Registry.createFromTemplate. rewrite Hget.
  unfold Registry.bind, Registry.ret.
  match goal with
  | |- context [Registry.setProjectType ?i ?c m] =>
      destruct (Registry.setProjectType i c m) as [[e|[]] m'']
  end; [discriminate|].
  intros H. injection H as <- _. reflexivity.
Qed.

(** X6 - [createFromTemplate] on a template the registry does not serve
    throws "Template not found"; and however it fails (also on a built-in
    new id, or an empty new id or name), nothing has been registered. *)
Theorem createFromTemplate_throws_unchanged :
  forall (templateId newId newName : string) (m : ProjectTypeManager),
    (Registry.getProjectType m templateId = None ->
       Registry.createFromTemplate templateId newId newName m
       = (inl (Error ("Template not found: " ++ templateId)), m))
    /\ (forall e,
          fst (Registry.createFromTemplate templateId newId newName m) = inl e ->
          snd (Registry.createFromTemplate templateId newId newName m) = m).
Proof.
  intros templateId newId newName m. unfold Registry.createFromTemplate. split.
  - intros ->. reflexivity.
  - intros e. destruct (Registry.getProjectType m templateId) as [template|];
      [|reflexivity].
    unfold Registry.bind, Registry.ret.
    match goal with
    | |- context [Registry.setProjectType ?i ?c m] =>
        pose proof (setProjectType_throws i c m) as Hs;
        destruct (Registry.setProjectType i c m) as [[e'|[]] m'']
    end; cbn in *; [intros _; exact (Hs e' eq_refl)|discriminate].
Qed.

Lemma createFromTemplate_throws_unchanged_witness :
  Registry.createFromTemplate "yoga" "studio2" "Studio Two" Scenario.withStudio
  = (inl (Error "Template not found: yoga"), Scenario.withStudio)
  /\ snd (Registry.createFromTemplate "studio" "gym" "My Gym" Scenario.withStudio)
     = Scenario.withStudio.
Proof.
  split.
  - destruct (createFromTemplate_throws_unchanged "yoga" "studio2" "Studio Two"
                Scenario.withStudio) as [H _].
    apply H. vm_compute. reflexivity.
  - destruct (createFromTemplate_throws_unchanged "studio" "gym" "My Gym"
                Scenario.withStudio) as [_ H].
    apply (H (Error "Cannot override default project type: gym")).
    vm_compute. reflexivity.
Defined.

(** X7 - [createFromTemplate] from a valid template, with a new id that
    is no built-in id and a non-empty new id and name: it returns a
    configuration with the new id and name, the description written from
    both names and the template's business type; that configuration is
    valid and is what the registry then serves under the new id, and the
    template is still served under its own id. *)
Theorem createFromTemplate_registers :
  forall (templateId newId newName : string) (m : ProjectTypeManager)
    (template : ProjectTypeConfig),
    Notion.ordinaryId newId ->
    Registry.getProjectType m templateId = Some template ->
    Registry.validateProjectTypeConfig template = inr tt ->
    DEFAULT_PROJECT_TYPES !! newId = None ->
    newId <> EmptyString ->
    newName <> EmptyString ->
    exists newConfig m',
      Registry.createFromTemplate templateId newId newName m = (inr newConfig, m')
      /\ pt_id newConfig = Some newId
      /\ pt_name newConfig = Some newName
      /\ pt_description newConfig
         = Some ("Custom " ++ newName ++ " based on "
                 ++ Registry.interpolate (pt_name template))
      /\ pt_businessType newConfig = pt_businessType template
      /\ Registry.validateProjectTypeConfig newConfig = inr tt
      /\ Registry.getProjectType m' newId = Some newConfig
      /\ (templateId <> newId -> Registry.getProjectType m' templateId = Some template).
Proof.
  intros templateId newId newName m template _ Hget Hv Hfree Hid Hname.
  destruct (validate_categories _ Hv) as (inv & rev & op & st & Hc).
  unfold Registry.createFromTemplate. rewrite Hget.
  unfold Registry.bind, Registry.ret.
  match goal with
  | |- context [Registry.setProjectType newId ?c m] => set (newConfig := c)
  end.
  assert (Hnew : Registry.validateProjectTypeConfig newConfig = inr tt).
  { unfold Registry.validateProjectTypeConfig, Registry.missing, newConfig.
    cbn [pt_id pt_name pt_categories].
    apply String.eqb_neq in Hid, Hname. rewrite Hid, Hname, Hc. reflexivity. }
  rewrite (setProjectType_returns newId newConfig m Hfree Hnew).
  eexists _, _. split; [reflexivity|].
  unfold Registry.getProjectType, Registry.getAllProjectTypes. cbn [customTypes].
  repeat split; try reflexivity; try exact Hnew.
  - apply lookup_union_Some_l, lookup_insert_eq.
  - intros Hne. unfold Registry.getProjectType, Registry.getAllProjectTypes in Hget.
    rewrite lookup_union, lookup_insert_ne by congruence.
    rewrite <- lookup_union. exact Hget.
Qed.

Lemma createFromTemplate_registers_witness :
  exists newConfig m',
    Registry.createFromTemplate "gym" "crossfit" "CrossFit Box" Sample.fresh
    = (inr newConfig, m')
    /\ pt_id newConfig = Some "crossfit"
    /\ Registry.getProjectType m' "crossfit" = Some newConfig
    /\ Registry.getProjectType m' "gym" = Some gym_template.
Proof.
  destruct (createFromTemplate_registers "gym" "crossfit" "CrossFit Box"
              Sample.fresh gym_template)
    as (newConfig & m' & Hc & Hid & _ & _ & _ & _ & Hnew & Htpl).
  - unfold Notion.ordinaryId, Notion.prototypeNames. cbn.
    intros H. repeat (destruct H as [H|H]; [discriminate|]). exact H.
  - vm_compute. reflexivity.
  - vm_compute. reflexivity.
  - vm_compute. reflexivity.
  - discriminate.
  - discriminate.
  - exists newConfig, m'. repeat split; try assumption. apply Htpl. discriminate.
Defined.

(** A default that is not an infinity reads the same after the JSON round
    trip: [-0] and NaN were falsy before and are absent or [0] after. *)
Lemma orElse_cloneDefault (d : option prim) :
  match d with Some (PNum (S754_infinity _)) => false | _ => true end = true ->
  Js.orElse (Registry.cloneDefault d) 0 = Js.orElse d 0.
Proof.
  destruct d as [[[s|s| |s m e]|b]|]; cbn; try reflexivity. discriminate.
Qed.

Lemma fold_left_map_in {A B : Type} (f : A -> B -> A) (g : B -> B) (l : list B) (a : A) :
  (forall x y, In y l -> f x (g y) = f x y) ->
  fold_left f (map g l) a = fold_left f l a.
Proof.
  revert a. induction l as [|y l IH]; intros a H; [reflexivity|].
  cbn. rewrite H by (left; reflexivity). apply IH.
  intros x z Hz. apply H. right. exact Hz.
Qed.

Lemma forallb_In {A : Type} (p : A -> bool) (l : list A) (x : A) :
  forallb p l = true -> In x l -> p x = true.
Proof.
  intros H Hin. rewrite forallb_forall in H. apply H, Hin.
Qed.

(** The sums of the engine read a cloned field list as they read the
    original. *)
Lemma calculateOperatingCosts_clone (fields : option (list FieldSpec)) (data : ValueBag) :
  Notion.categoryFinite fields = true ->
  Engine.calculateOperatingCosts (option_map (map Registry.cloneField) fields) data
  = Engine.calculateOperatingCosts fields data.
Proof.
  destruct fields as [l|]; [|reflexivity]. cbn [Notion.categoryFinite option_map].
  intros Hfin. unfold Engine.calculateOperatingCosts.
  cbn [Engine.bindE Engine.iterate]. f_equal.
  apply fold_left_map_in. intros total f Hf.
  cbn [Registry.cloneField f_type f_id f_defaultValue].
  rewrite orElse_cloneDefault; [reflexivity|].
  exact (forallb_In _ _ _ Hfin Hf).
Qed.

Lemma calculateStaffingCosts_clone (fields : option (list FieldSpec)) (data : ValueBag) :
  Notion.categoryFinite fields = true ->
  Engine.calculateStaffingCosts (option_map (map Registry.cloneField) fields) data
  = Engine.calculateStaffingCosts fields data.
Proof.
  destruct fields as [l|]; [|reflexivity]. cbn [Notion.categoryFinite option_map].
  intros Hfin. unfold Engine.calculateStaffingCosts.
  cbn [Engine.bindE Engine.iterate].
  rewrite fold_left_map_in; [reflexivity|].
  intros roles f Hf. unfold Engine.staffingField.
  cbn [Registry.cloneField f_type f_id f_defaultValue].
  rewrite orElse_cloneDefault; [reflexivity|].
  exact (forallb_In _ _ _ Hfin Hf).
Qed.

Lemma calculateInvestment_fields_clone (l : list FieldSpec) (data : ValueBag)
  (f : float64 -> FieldSpec -> float64) :
  f = (fun (totalInvestment : float64) (field : FieldSpec) =>
         if String.eqb (f_type field) "currency" then
           let value : prim :=
             Engine.getValue data (f_id field) (Js.orElse (f_defaultValue field) 0) in
           let value : prim :=
             if String.eqb (f_id field) "courtCost" && Js.truthyProp (data !! "courts")
             then PNum (value * Engine.getValue data "courts" 1)
             else value in
           totalInvestment + value
         else totalInvestment) ->
  forallb Notion.finiteDefault l = true ->
  fold_left f (map Registry.cloneField l) 0 = fold_left f l 0.
Proof.
  intros -> Hfin. apply fold_left_map_in. intros total field Hf.
  cbn [Registry.cloneField f_type f_id f_defaultValue].
  rewrite orElse_cloneDefault; [reflexivity|].
  exact (forallb_In _ _ _ Hfin Hf).
Qed.

Lemma finiteDefaults_categories (config : ProjectTypeConfig) (c : Categories) :
  Notion.finiteDefaults config = true ->
  pt_categories config = Some c ->
  Notion.categoryFinite (cat_investment c) = true
  /\ Notion.categoryFinite (cat_revenue c) = true
  /\ Notion.categoryFinite (cat_operating c) = true
  /\ Notion.categoryFinite (cat_staffing c) = true.
Proof.
  unfold Notion.finiteDefaults. intros H Hc. rewrite Hc in H.
  apply andb_prop in H as [H Hst]. apply andb_prop in H as [H Hop].
  apply andb_prop in H as [Hinv Hrev]. auto.
Qed.

Lemma calculateCosts_clone (config clone : ProjectTypeConfig) (data : ValueBag) :
  pt_categories clone = option_map Registry.cloneCategories (pt_categories config) ->
  Notion.finiteDefaults config = true ->
  Engine.calculateCosts clone data = Engine.calculateCosts config data.
Proof.
  intros Hclone Hfin. unfold Engine.calculateCosts, Engine.category. rewrite Hclone.
  destruct (pt_categories config) as [c|] eqn:Hc; [|reflexivity].
  destruct (finiteDefaults_categories _ _ Hfin Hc) as (_ & _ & Hop & Hst).
  cbn [option_map Engine.bindE Registry.cloneCategories cat_operating cat_staffing].
  rewrite (calculateOperatingCosts_clone _ data Hop).
  destruct (Engine.calculateOperatingCosts (cat_operating c) data); [reflexivity|].
  cbn [Engine.bindE]. rewrite (calculateStaffingCosts_clone _ data Hst). reflexivity.
Qed.

Lemma calculateInvestment_clone (config clone : ProjectTypeConfig) (data : ValueBag) :
  pt_categories clone = option_map Registry.cloneCategories (pt_categories config) ->
  Notion.finiteDefaults config = true ->
  Engine.calculateInvestment clone data = Engine.calculateInvestment config data.
Proof.
  intros Hclone Hfin. unfold Engine.calculateInvestment, Engine.category. rewrite Hclone.
  destruct (pt_categories config) as [c|] eqn:Hc; [|reflexivity].
  destruct (finiteDefaults_categories _ _ Hfin Hc) as (Hinv & _).
  cbn [option_map Engine.bindE Registry.cloneCategories cat_investment].
  destruct (cat_investment c) as [l|]; [|reflexivity].
  cbn [option_map Engine.bindE Engine.iterate]. f_equal.
  apply (calculateInvestment_fields_clone l data); [reflexivity|exact Hinv].
Qed.

(** X8 - a template made by [createFromTemplate] costs what its template
    costs: on every bag its operating and staffing costs and its investment
    are those of the template, as long as the template declares no infinite
    default (the copy goes through JSON, which has no infinities). *)
Theorem createFromTemplate_same_costs :
  forall (templateId newId newName : string) (m m' : ProjectTypeManager)
    (template newConfig : ProjectTypeConfig) (data : ValueBag),
    Registry.getProjectType m templateId = Some template ->
    Registry.createFromTemplate templateId newId newName m = (inr newConfig, m') ->
    Notion.finiteDefaults template = true ->
    Engine.calculateCosts newConfig data = Engine.calculateCosts template data
    /\ Engine.calculateInvestment newConfig data
       = Engine.calculateInvestment template data.
Proof.
  intros templateId newId newName m m' template newConfig data Hget Hcreate Hfin.
  rewrite (createFromTemplate_inr _ _ _ _ _ _ _ Hget Hcreate).
  split; [apply calculateCosts_clone|apply calculateInvestment_clone];
    try reflexivity; exact Hfin.
Qed.

Lemma createFromTemplate_same_costs_witness :
  exists newConfig m',
    Registry.createFromTemplate "padel" "padel2" "Second club" Sample.fresh
    = (inr newConfig, m')
    /\ Engine.calculateInvestment newConfig Sample.padelDefaults = inr 244000
    /\ option_map cost_annual
         (match Engine.calculateCosts newConfig Sample.padelDefaults with
          | inr c => Some c
          | inl _ => None
          end) = Some 114000.
Proof.
  destruct (Registry.createFromTemplate "padel" "padel2" "Second club" Sample.fresh)
    as [[e|newConfig] m'] eqn:Hc; [vm_compute in Hc; discriminate|].
  exists newConfig, m'. split; [reflexivity|].
  destruct (createFromTemplate_same_costs "padel" "padel2" "Second club" Sample.fresh
              m' padel_template newConfig Sample.padelDefaults) as [Hcost Hinv].
  - vm_compute. reflexivity.
  - exact Hc.
  - vm_compute. reflexivity.
  - rewrite Hcost, Hinv. vm_compute. split; reflexivity.
Defined.

(** The generic formula gives 0 when no field is a currency field with
    "revenue" in its id. *)
Lemma calculateGenericRevenue_none (fields : list FieldSpec) (data : ValueBag) :
  forallb (fun f => negb (Spec.isRevenueField f)) fields = true ->
  Engine.calculateGenericRevenue (Some fields) data = inr 0.
Proof.
  intros H. unfold Engine.calculateGenericRevenue.
  cbn [Engine.bindE Engine.iterate]. f_equal.
  induction fields as [|f fields IH]; [reflexivity|].
  cbn [forallb] in H. apply andb_prop in H as [Hf H].
  cbn [fold_left]. unfold Spec.isRevenueField, Spec.isCurrency in Hf.
  apply negb_true_iff in Hf. rewrite Hf. apply IH, H.
Qed.

(** X9 - a template made by [createFromTemplate] from one of the built-in
    templates that have a revenue formula of their own does not inherit
    the formula: the formula goes by the schema's id, the new id has none,
    and no revenue field of those templates has "revenue" in its id, so
    the copy's revenue is 0 on every bag. *)
Theorem createFromTemplate_loses_formula :
  forall (templateId newId newName : string) (m m' : ProjectTypeManager)
    (newConfig : ProjectTypeConfig) (data : ValueBag),
    In templateId Notion.bespokeBuiltins ->
    Registry.getProjectType m templateId = DEFAULT_PROJECT_TYPES !! templateId ->
    ~ In newId Spec.bespokeIds ->
    Registry.createFromTemplate templateId newId newName m = (inr newConfig, m') ->
    Engine.calculateRevenue newConfig data
    = inr {| rev_annual := 0; rev_monthly := 0 / 12; rev_daily := 0 / 365 |}.
Proof.
  intros templateId newId newName m m' newConfig data Htpl Hget Hnew Hcreate.
  assert (Hno : forall id, In id Spec.bespokeIds -> String.eqb newId id = false).
  { intros id Hid. apply String.eqb_neq. intros ->. exact (Hnew Hid). }
  assert (Hchain : forall revenueConfig clone,
             pt_id clone = Some newId ->
             pt_categories clone = Some revenueConfig ->
             Engine.calculateRevenue clone data
             = Engine.bindE (Engine.calculateGenericRevenue (cat_revenue revenueConfig) data)
                 (fun annualRevenue : float64 =>
                    inr {| rev_annual := annualRevenue;
                           rev_monthly := annualRevenue / 12;
                           rev_daily := annualRevenue / 365 |})).
  { intros revenueConfig clone Hid Hcat.
    unfold Engine.calculateRevenue, Engine.category, Engine.idIs.
    rewrite Hid, Hcat. cbn [Engine.bindE].
    rewrite !Hno by (unfold Spec.bespokeIds; cbn; tauto). reflexivity. }
  unfold Notion.bespokeBuiltins in Htpl. cbn [In] in Htpl.
  repeat (destruct Htpl as [<-|Htpl];
          [ match type of Hget with
            | _ = DEFAULT_PROJECT_TYPES !! ?k =>
                let t := eval vm_compute in (DEFAULT_PROJECT_TYPES !! k) in
                change (DEFAULT_PROJECT_TYPES !! k) with t in Hget
            end;
            rewrite (createFromTemplate_inr _ _ _ _ _ _ _ Hget Hcreate);
            erewrite Hchain by reflexivity;
            cbn [Registry.cloneCategories cat_revenue option_map];
            rewrite calculateGenericRevenue_none by (vm_compute; reflexivity);
            reflexivity
          | ]).
  destruct Htpl.
Qed.

Lemma createFromTemplate_loses_formula_witness :
  exists newConfig m',
    Registry.createFromTemplate "gym" "crossfit" "CrossFit Box" Sample.fresh
    = (inr newConfig, m')
    /\ option_map rev_annual
         (match Engine.calculateRevenue newConfig Sample.gymDefaults with
          | inr r => Some r
          | inl _ => None
          end) = Some 0%js
    /\ option_map rev_annual
         (match Engine.calculateRevenue gym_template Sample.gymDefaults with
          | inr r => Some r
          | inl _ => None
          end) = Some 85800%js.
Proof.
  destruct (Registry.createFromTemplate "gym" "crossfit" "CrossFit Box" Sample.fresh)
    as [[e|newConfig] m'] eqn:Hc; [vm_compute in Hc; discriminate|].
  exists newConfig, m'. split; [reflexivity|]. split.
  - rewrite (createFromTemplate_loses_formula "gym" "crossfit" "CrossFit Box"
               Sample.fresh m' newConfig Sample.gymDefaults).
    + reflexivity.
    + unfold Notion.bespokeBuiltins. cbn. tauto.
    + vm_compute. reflexivity.
    + unfold Spec.bespokeIds. cbn.
      intros H. repeat (destruct H as [H|H]; [discriminate|]). exact H.
    + exact Hc.
  - vm_compute. reflexivity.
Defined.

Lemma validateEntries_lines (entries : list (string * ProjectTypeConfig))
  (m : ProjectTypeManager) :
  console (snd (Registry.validateEntries entries m))
  = (console m ++ flat_map Notion.skipLine entries)%list.
Proof.
  revert m. induction entries as [|[id config] rest IH]; intros m.
  - cbn. symmetry. apply app_nil_r.
  - cbn [Registry.validateEntries flat_map]. unfold Registry.bind at 1.
    unfold Notion.skipLine at 1. cbn [fst snd].
    destruct (Registry.validateProjectTypeConfig config) as [e|[]]; cbn.
    + match goal with
      | |- context [Registry.validateEntries rest ?m'] => rewrite (IH m')
      end.
      cbn [console]. rewrite <- app_assoc. reflexivity.
    + apply IH.
Qed.

(** X10 - [importConfiguration] replaces, it does not merge: with a
    [custom] object the call returns, and the custom templates (in memory
    and in storage) are then exactly that object, so a template registered
    before and not in the object is gone; without one the call changes
    nothing. *)
Theorem importConfiguration_replaces :
  forall (configData : ConfigData) (m : ProjectTypeManager),
    match custom configData with
    | Some c =>
        fst (Registry.importConfiguration configData m) = inr tt
        /\ customTypes (snd (Registry.importConfiguration configData m)) = c
        /\ localStorage (snd (Registry.importConfiguration configData m)) = Some c
    | None => Registry.importConfiguration configData m = (inr tt, m)
    end.
Proof.
  intros [[c|]] m; cbn [custom]; [|reflexivity].
  unfold Registry.importConfiguration. cbn [custom]. unfold Registry.bind.
  destruct (validateEntries_returns (map_to_list c) m) as (H1 & _ & _).
  destruct (Registry.validateEntries (map_to_list c) m) as [[e|[]] m'];
    cbn in H1; [discriminate|]. cbn. easy.
Qed.

(** X11 - the console after [importConfiguration]: the lines there were,
    followed by one "Skipping invalid project type" line, with the id and
    the validation error, for each entry of [custom] that fails validation,
    and by nothing else. *)
Theorem importConfiguration_console :
  forall (c : gmap string ProjectTypeConfig) (m : ProjectTypeManager),
    console (snd (Registry.importConfiguration {| custom := Some c |} m))
    = (console m ++ flat_map Notion.skipLine (map_to_list c))%list.
Proof.
  intros c m. unfold Registry.importConfiguration. cbn [custom].
  unfold Registry.bind.
  pose proof (validateEntries_lines (map_to_list c) m) as Hl.
  destruct (validateEntries_returns (map_to_list c) m) as (H1 & _ & _).
  destruct (Registry.validateEntries (map_to_list c) m) as [[e|[]] m'];
    cbn in H1; [discriminate|]. cbn in Hl |- *. exact Hl.
Qed.

Lemma jsonConfig_id (config : ProjectTypeConfig) :
  Notion.jsonDefaults config = true -> Catalogue.jsonConfig config = config.
Proof.
  assert (Hd : forall f, Notion.jsonDefault f = true -> Registry.cloneField f = f).
  { intros [id name type d g]. unfold Notion.jsonDefault, Registry.cloneField.
    cbn. destruct d as [[[[]|s| |s m e]|b]|]; cbn; try reflexivity; discriminate. }
  assert (Hl : forall l, forallb Notion.jsonDefault l = true ->
                         map Registry.cloneField l = l).
  { induction l as [|f l IH]; [reflexivity|]. cbn. intros H.
    apply andb_prop in H as [Hf H]. rewrite (Hd f Hf), (IH H). reflexivity. }
  assert (Hc : forall o, Notion.categoryJson o = true ->
                         option_map (map Registry.cloneField) o = o).
  { intros [l|]; [|reflexivity]. cbn. intros H. rewrite (Hl l H). reflexivity. }
  destruct config as [id name description businessType [[inv rev op st]|]];
    [|reflexivity].
  unfold Notion.jsonDefaults, Catalogue.jsonConfig, Registry.cloneCategories. cbn.
  intros H. apply andb_prop in H as [H Hst]. apply andb_prop in H as [H Hop].
  apply andb_prop in H as [Hinv Hrev].
  rewrite (Hc inv Hinv), (Hc rev Hrev), (Hc op Hop), (Hc st Hst). reflexivity.
Qed.

(** X12 - exporting to a file and importing that file, into any manager:
    the import returns, and the custom templates it installs are those of
    the exporting manager after one JSON round trip.  A template all of
    whose declared defaults are finite numbers other than [-0], or
    booleans, comes back exactly as it was. *)
Theorem exportFile_importFile :
  forall (now : string) (m m' : ProjectTypeManager),
    let imported := Catalogue.importFile (Catalogue.exportFile now m) m' in
    fst imported = inr tt
    /\ customTypes (snd imported) = Catalogue.jsonConfig <$> customTypes m
    /\ (forall id config,
          customTypes m !! id = Some config ->
          Notion.jsonDefaults config = true ->
          Registry.getProjectType (snd imported) id = Some config).
Proof.
  intros now m m' imported. subst imported. unfold Catalogue.importFile.
  pose proof (importConfiguration_replaces
                {| custom := Some (exp_custom (Catalogue.exportFile now m)) |} m') as H.
  cbn [custom] in H. destruct H as (H1 & H2 & _).
  split; [exact H1|]. split; [exact H2|].
  intros id config Hid Hjson.
  unfold Registry.getProjectType, Registry.getAllProjectTypes.
  apply lookup_union_Some_l. rewrite H2. cbn.
  rewrite lookup_fmap, Hid. cbn. rewrite (jsonConfig_id _ Hjson). reflexivity.
Qed.

Lemma exportFile_importFile_witness :
  Registry.getProjectType
    (snd (Catalogue.importFile
            (Catalogue.exportFile "2025-01-01T00:00:00.000Z" Scenario.withStudio)
            Sample.fresh)) "studio"
  = Some Sample.studio.
Proof.
  destruct (exportFile_importFile "2025-01-01T00:00:00.000Z" Scenario.withStudio
              Sample.fresh) as (_ & _ & H).
  apply H; vm_compute; reflexivity.
Defined.

(** X13 - [setProjectType], [deleteProjectType] and [createFromTemplate]
    never touch a built-in: after any sequence of such calls on a fresh
    manager, whether they returned or threw, every built-in id is served
    with its built-in schema. *)
Theorem calls_without_import_keep_builtins :
  forall (cs : list RegistryCall) (id : string),
    forallb (fun c => negb (isImport c)) cs = true ->
    is_Some (DEFAULT_PROJECT_TYPES !! id) ->
    Registry.getProjectType (calls Sample.fresh cs) id = DEFAULT_PROJECT_TYPES !! id.
Proof.
  intros cs id Hcs Hid. apply getProjectType_builtin; [|exact Hid].
  apply calls_without_import_unshadowed; [exact Hcs|exact fresh_unshadowed].
Qed.

Lemma calls_without_import_keep_builtins_witness :
  Registry.getProjectType
    (calls Sample.fresh
       [SetProjectType "gym" Sample.rogueGym;
        CreateFromTemplate "gym" "padel" "Padel again";
        SetProjectType "studio" Sample.studio;
        DeleteProjectType "generic"]) "gym"
  = Some gym_template.
Proof.
  rewrite calls_without_import_keep_builtins.
  - vm_compute. reflexivity.
  - vm_compute. reflexivity.
  - exists gym_template. vm_compute. reflexivity.
Defined.

(** X14 - [getProjectsByBusinessType] lists exactly the schemas the
    registry serves, under some id, whose [businessType] is the one asked
    for; a built-in that a custom template shadows is not served and so
    not listed. *)
Theorem getProjectsByBusinessType_lists :
  forall (m : ProjectTypeManager) (businessType : string) (type : ProjectTypeConfig),
    In type (Catalogue.getProjectsByBusinessType m businessType)
    <-> exists id,
          Registry.getProjectType m id = Some type
          /\ pt_businessType type = Some businessType.
Proof.
  intros m businessType type. unfold Catalogue.getProjectsByBusinessType.
  rewrite filter_In, in_map_iff. unfold Catalogue.businessTypeIs,
    Registry.getProjectType. split.
  - intros [[[id type'] [Heq Hin]] Hb]. cbn in Heq. subst type'.
    exists id. split.
    + apply elem_of_map_to_list, list_elem_of_In, Hin.
    + destruct (pt_businessType type) as [b|]; [|discriminate].
      apply String.eqb_eq in Hb. subst b. reflexivity.
  - intros [id [Hget Hb]]. split.
    + exists (id, type). split; [reflexivity|].
      apply list_elem_of_In, elem_of_map_to_list, Hget.
    + rewrite Hb. apply String.eqb_refl.
Qed.
